(** * Offer Tracker Dashboard (src/dashboard.py): loader, filter and aggregates

    A shallow embedding of the data pipeline of [dashboard.py] and the
    properties its specification states about it.

    Conventions of the embedding.
    - A pandas float64 value is a binary64 number of the IEEE 754
      specification ([spec_float] with 53 bits of precision): the CTC
      columns, the hike and its mean are computed with the rounding, the
      infinities and the NaN of the code. NaN is the missing value of a
      float column; pd.NA is the missing value of the object column that
      holds the hike.
    - Counts are natural numbers; the join rate, a ratio of two counts, is
      kept as an exact rational.
    - A DataFrame is a list of rows in row order, each with its index label.
    - The top-level script is a sequence of bindings in a name space of
      globals; reading an unbound name raises [NameError]. *)

From Stdlib Require Import ZArith QArith Lia Lqa SpecFloat.
From stdpp Require Import base decidable option list sorting strings pretty gmap.

Local Open Scope string_scope.
Local Open Scope list_scope.

(** ** Cells, dates and timestamps *)

(** An untyped spreadsheet cell as pandas hands it over in an object column:
    a string, a number, or an empty cell (NaN). *)
Inductive cell :=
  | CStr (s : string)
  | CNum (q : Q)
  | CNaN.

Global Instance Q_eq_dec : EqDecision Q.
Proof. solve_decision. Defined.
Global Instance cell_eq_dec : EqDecision cell.
Proof. solve_decision. Defined.

(** [datetime.date]: compared lexicographically on (year, month, day). *)
Record date := Date { d_year : Z; d_month : Z; d_day : Z }.

(** [pd.Timestamp]: a calendar date and the nanoseconds since midnight. *)
Record Timestamp := Stamp { ts_date : date; ts_tod : Z }.

Definition date_eqb (a b : date) : bool :=
  (d_year a =? d_year b)%Z && (d_month a =? d_month b)%Z && (d_day a =? d_day b)%Z.

Definition date_ltb (a b : date) : bool :=
  (d_year a <? d_year b)%Z
  || ((d_year a =? d_year b)%Z
      && ((d_month a <? d_month b)%Z
          || ((d_month a =? d_month b)%Z && (d_day a <? d_day b)%Z))).

Definition date_leb (a b : date) : bool := date_ltb a b || date_eqb a b.

Definition ts_leb (a b : Timestamp) : bool :=
  date_ltb (ts_date a) (ts_date b)
  || (date_eqb (ts_date a) (ts_date b) && (ts_tod a <=? ts_tod b)%Z).

(** [Series.min()] and [Series.max()] of a datetime column; [None] is NaT,
    the result on an empty column. *)
Definition ts_min (a b : Timestamp) : Timestamp := if ts_leb a b then a else b.
Definition ts_max (a b : Timestamp) : Timestamp := if ts_leb a b then b else a.

Definition series_min (l : list Timestamp) : option Timestamp :=
  match l with
  | [] => None
  | t :: l' => Some (foldl ts_min t l')
  end.

Definition series_max (l : list Timestamp) : option Timestamp :=
  match l with
  | [] => None
  | t :: l' => Some (foldl ts_max t l')
  end.

(** [strftime('%b')]. *)
Definition month_abbr (m : Z) : string :=
  match m with
  | 1 => "Jan" | 2 => "Feb" | 3 => "Mar" | 4 => "Apr"
  | 5 => "May" | 6 => "Jun" | 7 => "Jul" | 8 => "Aug"
  | 9 => "Sep" | 10 => "Oct" | 11 => "Nov" | 12 => "Dec"
  | _ => ""
  end%Z.

(** [strftime('%m')]: the month number on two digits. *)
Definition month_2d (m : Z) : string :=
  if (m <? 10)%Z then "0" ++ pretty m else pretty m.

(** [dt.strftime('%b %Y')], the column 'Month'. *)
Definition strftime_b_Y (t : Timestamp) : string :=
  month_abbr (d_month (ts_date t)) ++ " " ++ pretty (d_year (ts_date t)).

(** [dt.to_period('M').astype(str)], the column 'Year-Month'. *)
Definition period_M_str (t : Timestamp) : string :=
  pretty (d_year (ts_date t)) ++ "-" ++ month_2d (d_month (ts_date t)).

(** ** binary64 numbers and float columns *)

Abbreviation float64 := spec_float.

(** Arithmetic in binary64, rounding to nearest even. *)
Definition fadd : float64 → float64 → float64 := SFadd 53 1024.
Definition fsub : float64 → float64 → float64 := SFsub 53 1024.
Definition fmul : float64 → float64 → float64 := SFmul 53 1024.
Definition fdiv : float64 → float64 → float64 := SFdiv 53 1024.

(** The float of an integer literal or count. *)
Definition of_Z (z : Z) : float64 := binary_normalize 53 1024 z 0 false.

Arguments of_Z : simpl never.
Arguments fadd : simpl never.
Arguments fsub : simpl never.
Arguments fmul : simpl never.
Arguments fdiv : simpl never.

Definition NaN : float64 := S754_nan.
Definition inf : float64 := S754_infinity false.
Definition neg_inf : float64 := S754_infinity true.

(** [pd.isna] and [Series.notna()] on a float. *)
Definition isna (x : float64) : bool :=
  match x with S754_nan => true | _ => false end.
Definition notna (x : float64) : bool := negb (isna x).

(** [col > k] on a float column and [col >= k] on the object column of the
    hike: a comparison with NaN or pd.NA is False. *)
Definition gt_scalar (x : float64) (k : float64) : bool := SFltb k x.
Definition ge_scalar (x : option float64) (k : float64) : bool :=
  match x with Some v => SFleb k v | None => false end.

(** ** load_data *)

(** One row of 'Sheet1' once [pd.to_datetime] and [pd.to_numeric] have run
    with [errors='coerce']: a date they cannot parse is [None] (NaT), a
    number they cannot parse is NaN. 'Status' and 'Source' are left as
    read. *)
Record RawRow := {
  raw_Offer_Date : option Timestamp;
  raw_Current_Fixed_CTC : float64;
  raw_Offered : float64;
  raw_Status : cell;
  raw_Source : cell
}.

(** A row of the normalized table, columns named as in the DataFrame. *)
Record OfferRecord := {
  Offer_Date : Timestamp;
  Month : string;
  Year_Month : string;
  Current_Fixed_CTC : float64;
  Offered : float64;
  Status : cell;
  Source : cell;
  Hike_Calculated : option float64;
  CTC_Bin : string;
  Source_Type : string
}.

(** A DataFrame: rows in order, each with its index label. *)
Abbreviation DataFrame := (list (nat * OfferRecord)).

Definition records (df : DataFrame) : list OfferRecord := df.*2.
Definition index (df : DataFrame) : list nat := df.*1.

(** The mask [valid] of lines 47-51. *)
Definition valid (cur off : float64) : bool :=
  notna cur && notna off && gt_scalar cur (of_Z 0).

(** Lines 52-56: the column starts as pd.NA and is assigned, on [valid]
    rows, the value of the expression in binary64. *)
Definition pct_hike (cur off : float64) : option float64 :=
  if valid cur off
  then Some (fmul (fdiv (fsub off cur) cur) (of_Z 100))
  else None.

(** Lines 59-69. *)
Definition ctc_bin (ctc : float64) : string :=
  if isna ctc then "Unknown"
  else if SFltb ctc (of_Z 10) then "<10L"
  else if SFltb ctc (of_Z 20) then "10-20L"
  else if SFltb ctc (of_Z 30) then "20-30L"
  else "≥30L".

(** Line 73. *)
Definition internal_sources : list string :=
  ["Employee Referral"; "Internal Sourcing"; "Direct"].

(** Python's [x in list_of_str] on a cell: only a string can be equal to a
    member of the list. *)
Definition cell_in (x : cell) (l : list string) : bool :=
  match x with
  | CStr s => bool_decide (s ∈ l)
  | _ => false
  end.

(** Line 74. *)
Definition classify_source (x : cell) : string :=
  if cell_in x internal_sources then "Internal" else "External".

Definition normalize (t : Timestamp) (r : RawRow) : OfferRecord :=
  {| Offer_Date := t;
     Month := strftime_b_Y t;
     Year_Month := period_M_str t;
     Current_Fixed_CTC := raw_Current_Fixed_CTC r;
     Offered := raw_Offered r;
     Status := raw_Status r;
     Source := raw_Source r;
     Hike_Calculated := pct_hike (raw_Current_Fixed_CTC r) (raw_Offered r);
     CTC_Bin := ctc_bin (raw_Offered r);
     Source_Type := classify_source (raw_Source r) |}.

(** [dropna(subset=['Offer Date'])] keeps the surviving rows' labels. *)
Fixpoint load_rows (i : nat) (sheet : list RawRow) : DataFrame :=
  match sheet with
  | [] => []
  | r :: rest =>
      match raw_Offer_Date r with
      | Some t => (i, normalize t r) :: load_rows (S i) rest
      | None => load_rows (S i) rest
      end
  end.

Definition load_data (sheet : list RawRow) : DataFrame := load_rows 0 sheet.

(** ** Objects: DataFrames live in a heap, variables hold references *)

(** Every pandas call of the filter section ([df[mask]], [.copy()],
    [.reset_index(drop=True)]) returns a new object; none is called with
    [inplace=True]. A computation reads and allocates objects, and fails on a
    dangling reference. *)
Definition M (A : Type) : Type := gmap nat DataFrame → option (A * gmap nat DataFrame).

Definition ret {A} (a : A) : M A := λ h, Some (a, h).
Definition bind {A B} (c : M A) (k : A → M B) : M B :=
  λ h, match c h with
       | Some (a, h') => k a h'
       | None => None
       end.

Notation "x <- c ;; k" := (bind c (λ x, k))
  (at level 100, c at next level, right associativity).

Definition read (o : nat) : M DataFrame :=
  λ h, match h !! o with Some t => Some (t, h) | None => None end.

Definition new (t : DataFrame) : M nat :=
  λ h, let o := fresh (dom h) in Some (o, <[o := t]> h).

(** [df[mask]]: the rows where the mask holds, labels kept. *)
Definition mask_select (mask : OfferRecord → bool) (t : DataFrame) : DataFrame :=
  filter (λ ir, mask ir.2) t.

(** [reset_index(drop=True)]: the labels become 0 .. n-1. *)
Definition reset_index (t : DataFrame) : DataFrame :=
  imap (λ i ir, (i, ir.2)) t.

Definition df_getitem (o : nat) (mask : OfferRecord → bool) : M nat :=
  t <- read o ;; new (mask_select mask t).
Definition df_copy (o : nat) : M nat :=
  t <- read o ;; new t.
Definition df_reset_index (o : nat) : M nat :=
  t <- read o ;; new (reset_index t).

(** ** Filter section (lines 94-124) *)

(** What the sidebar widgets return on one run. *)
Record Widgets := {
  filter_type : string;          (* st.sidebar.radio *)
  date_range : list date;        (* st.sidebar.date_input: 0, 1 or 2 dates *)
  selected_months : list string  (* st.sidebar.multiselect *)
}.

(** Lines 99-100: [df['Offer Date'].min().date()] and its max counterpart. *)
Definition min_date (t : DataFrame) : option date :=
  ts_date <$> series_min (Offer_Date <$> records t).
Definition max_date (t : DataFrame) : option date :=
  ts_date <$> series_max (Offer_Date <$> records t).

(** [Series.unique()]: distinct values in order of first appearance. *)
Fixpoint unique_from (seen l : list string) : list string :=
  match l with
  | [] => []
  | x :: l' =>
      if decide (x ∈ seen) then unique_from seen l'
      else x :: unique_from (x :: seen) l'
  end.
Definition unique (l : list string) : list string := unique_from [] l.

(** Python's [sorted] on strings. *)
Definition sorted (l : list string) : list string := merge_sort String.le l.

(** Line 116. *)
Definition all_months (t : DataFrame) : list string :=
  sorted (unique (Month <$> records t)).

(** Lines 110-111: both bounds inclusive, on the date part. *)
Definition in_date_range (start_date end_date : date) (r : OfferRecord) : bool :=
  date_leb start_date (ts_date (Offer_Date r))
  && date_leb (ts_date (Offer_Date r)) end_date.

(** Line 122: [df['Month'].isin(selected_months)]. *)
Definition month_isin (selected : list string) (r : OfferRecord) : bool :=
  bool_decide (Month r ∈ selected).

(** Lines 98-124, with [df] bound to the object [df]; the result is the
    object bound to [df_filtered]. [min_date], [max_date] and [all_months]
    are only handed to the widgets as defaults and bounds; what the widgets
    return is in [w]. *)
Definition filter_section (df : nat) (w : Widgets) : M nat :=
  df_filtered <-
    (if decide (filter_type w = "Date Range") then
       match date_range w with
       | [start_date; end_date] =>
           sel <- df_getitem df (in_date_range start_date end_date) ;;
           df_copy sel
       | _ => df_copy df
       end
     else
       match selected_months w with
       | [] => df_copy df
       | _ :: _ =>
           sel <- df_getitem df (month_isin (selected_months w)) ;;
           df_copy sel
       end) ;;
  df_reset_index df_filtered.

(** The rows [filter_section] selects, as a function of the table. *)
Definition filter_rows (t : DataFrame) (w : Widgets) : DataFrame :=
  if decide (filter_type w = "Date Range") then
    match date_range w with
    | [start_date; end_date] => mask_select (in_date_range start_date end_date) t
    | _ => t
    end
  else
    match selected_months w with
    | [] => t
    | _ :: _ => mask_select (month_isin (selected_months w)) t
    end.

(** ** KPIs (lines 134-148) *)

(** [col == 'text'] on one cell. *)
Definition cell_eq (c : cell) (s : string) : bool :=
  match c with
  | CStr s' => bool_decide (s' = s)
  | _ => false
  end.

Definition str_eq (a b : string) : bool := bool_decide (a = b).

(** [pd.isna] on a cell of the hike column: pd.NA or a NaN float. *)
Definition missing (x : option float64) : bool :=
  match x with
  | Some v => isna v
  | None => true
  end.

(** [Series.dropna()] on the hike column. *)
Definition dropna (col : list (option float64)) : list float64 :=
  omap (λ x, if missing x then None else x) col.

(** The sum inside [Series.mean()]: the missing cells are replaced by 0 and
    the column is added up from left to right in binary64. *)
Definition fill0 (x : option float64) : float64 :=
  match x with
  | Some v => if isna v then of_Z 0 else v
  | None => of_Z 0
  end.

Definition series_sum (col : list (option float64)) : float64 :=
  match fill0 <$> col with
  | [] => of_Z 0
  | x :: xs => foldl fadd x xs
  end.

(** [Series.mean()]: the sum over the number of cells that are not missing;
    NaN when there is none. *)
Definition series_mean (col : list (option float64)) : float64 :=
  let count := length (dropna col) in
  if (0 <? count)%nat
  then fdiv (series_sum col) (of_Z (Z.of_nat count))
  else NaN.

Definition total_offers (t : DataFrame) : nat := length t.

Definition joined (t : DataFrame) : nat :=
  length (mask_select (λ r, cell_eq (Status r) "Joined") t).

Definition join_rate (t : DataFrame) : Q :=
  if (0 <? total_offers t)%nat
  then (inject_Z (Z.of_nat (joined t)) / inject_Z (Z.of_nat (total_offers t)) * 100)%Q
  else 0%Q.

Definition avg_hike (t : DataFrame) : float64 :=
  series_mean (Hike_Calculated <$> records t).

Definition hike_30_plus (t : DataFrame) : nat :=
  length (mask_select (λ r, ge_scalar (Hike_Calculated r) (of_Z 30)) t).

Definition internal_count (t : DataFrame) : nat :=
  length (mask_select (λ r, str_eq (Source_Type r) "Internal") t).

Definition external_count (t : DataFrame) : nat :=
  length (mask_select (λ r, str_eq (Source_Type r) "External") t).

(** The text of a metric: a literal, or a number formatted by [:.1f] with a
    suffix (the rounding to one decimal is left to the renderer). *)
Inductive metric_text :=
  | Literal (s : string)
  | Fixed1 (x : float64) (suffix : string).

(** Line 145: [pd.notna(avg_hike)] decides between the number and the dash. *)
Definition avg_hike_text (avg : float64) : metric_text :=
  if isna avg then Literal "—" else Fixed1 avg "%".

(** ** Hike histogram (lines 163-176) *)

(** [pd.cut(x, bins, labels)] on one value with the default [right=True]:
    the label of the interval (lo, hi] that holds it, NaN when none does. *)
Fixpoint cut (bins : list float64) (labels : list string) (x : float64) : option string :=
  match bins with
  | [] => None
  | lo :: rest =>
      match rest, labels with
      | hi :: _, lab :: labs =>
          if SFltb lo x && SFleb x hi then Some lab else cut rest labs x
      | _, _ => None
      end
  end.

Definition bins : list float64 :=
  [neg_inf; of_Z 0; of_Z 15; of_Z 30; of_Z 50; inf].
Definition labels : list string := ["<0%"; "0-15%"; "15-30%"; "30-50%"; ">50%"].

(** [Series.value_counts()]: occurrences per value, NaN dropped. *)
Definition value_counts (col : list (option string)) : gmap string nat :=
  foldr (λ k m, <[k := S (default 0%nat (m !! k))]> m) ∅ (omap id col).

(** [.reindex(labels, fill_value=0)]: one entry per label, in that order. *)
Definition reindex (labs : list string) (m : gmap string nat) : list (string * nat) :=
  (λ k, (k, default 0%nat (m !! k))) <$> labs.

(** Lines 163-176: [None] is the branch that shows 'No valid hike data.'
    instead of a chart. *)
Definition hike_counts (t : DataFrame) : option (list (string * nat)) :=
  let hike_data := dropna (Hike_Calculated <$> records t) in
  match hike_data with
  | [] => None
  | _ :: _ =>
      let hike_binned := cut bins labels <$> hike_data in
      Some (reindex labels (value_counts hike_binned))
  end.

(** ** Full historical trend (lines 228-234) *)

Record TrendRow := {
  tr_Month : string;
  tr_Total_Offers : nat;
  tr_Onboarded : nat
}.

Definition by_month : relation TrendRow := λ a b, String.le (tr_Month a) (tr_Month b).

Global Instance by_month_dec : RelDecision by_month.
Proof. intros a b. unfold by_month. apply _. Defined.

(** [groupby('Year-Month')]: the groups in ascending key order, each with
    its rows in table order. *)
Definition groupby_Year_Month (t : DataFrame) : list (string * list OfferRecord) :=
  (λ k, (k, filter (λ r, Year_Month r = k) (records t)))
    <$> sorted (unique (Year_Month <$> records t)).

(** [.agg({'Offer Date': 'count', 'Status': (x == 'Joined').sum()})] on one
    group, after [reset_index] and the renaming of the columns. *)
Definition agg_group (g : string * list OfferRecord) : TrendRow :=
  {| tr_Month := g.1;
     tr_Total_Offers := length g.2;
     tr_Onboarded := length (filter (λ r, cell_eq (Status r) "Joined") g.2) |}.

(** [sort_values('Month')]. *)
Definition sort_values_Month (rows : list TrendRow) : list TrendRow :=
  merge_sort by_month rows.

Definition full_trend (t : DataFrame) : list TrendRow :=
  sort_values_Month (agg_group <$> groupby_Year_Month t).

(** ** The other charts (lines 178-217 and 276-286) *)

Global Instance Q_countable : Countable Q :=
  inj_countable' (λ q, (Qnum q, Qden q)) (λ p, Qmake p.1 p.2)
                 (λ q, match q with Qmake _ _ => eq_refl end).

Global Instance cell_countable : Countable cell :=
  inj_countable'
    (λ c, match c with
          | CStr s => inl s
          | CNum q => inr (Some q)
          | CNaN => inr None
          end)
    (λ x, match x with
          | inl s => CStr s
          | inr (Some q) => CNum q
          | inr None => CNaN
          end)
    (λ c, match c with CStr _ | CNum _ | CNaN => eq_refl end).

(** The key under which [value_counts] counts a cell of an object column:
    an empty cell is dropped and numbers are counted by value. *)
Definition cell_key (c : cell) : option cell :=
  match c with
  | CStr s => Some (CStr s)
  | CNum q => Some (CNum (Qred q))
  | CNaN => None
  end.

(** [Series.value_counts()] on an object column. *)
Definition value_counts_cells (col : list cell) : gmap cell nat :=
  foldr (λ k m, <[k := S (default 0%nat (m !! k))]> m) ∅ (omap cell_key col).

(** Lines 181-188: the counts behind the CTC pie; [None] is the branch that
    shows 'No CTC data.'. *)
Definition ctc_counts (f : DataFrame) : option (gmap string nat) :=
  let counts := value_counts (Some <$> (CTC_Bin <$> records f)) in
  if decide (counts = ∅) then None else Some counts.

(** Line 197. *)
Definition joined_df (f : DataFrame) : DataFrame :=
  mask_select (λ r, cell_eq (Status r) "Joined") f.

(** Lines 198-205: [None] shows 'No onboardings in selected period.'. *)
Definition source_type_counts (f : DataFrame) : option (gmap string nat) :=
  let counts := value_counts (Some <$> (Source_Type <$> records (joined_df f))) in
  if decide (counts = ∅) then None else Some counts.

(** Line 209. *)
Definition internal_joined (f : DataFrame) : DataFrame :=
  mask_select (λ r, str_eq (Source_Type r) "Internal") (joined_df f).

(** Lines 210-217: the guard is on the frame, not on the counts; [None]
    shows 'No internal onboardings in selected period.'. *)
Definition internal_counts (f : DataFrame) : option (gmap cell nat) :=
  match internal_joined f with
  | [] => None
  | _ :: _ => Some (value_counts_cells (Source <$> records (internal_joined f)))
  end.

(** Line 277: always on the whole table. *)
Definition status_all (t : DataFrame) : gmap cell nat :=
  value_counts_cells (Status <$> records t).

(** ** The page: everything below the upload check, with [df] bound *)

(** The values handed to the metric and chart widgets that the properties
    below are about. *)
Record Dashboard := {
  out_total_offers : nat;
  out_joined : nat;
  out_join_rate : Q;
  out_avg_hike : metric_text;
  out_hike_30_plus : nat;
  out_internal_count : nat;
  out_external_count : nat;
  out_hike_counts : option (list (string * nat));
  out_full_trend : list TrendRow
}.

(** Lines 98-234 with the name [df] bound to the object [df]: the KPIs and
    the histogram read [df_filtered], the trend reads [df] again. *)
Definition page (df : nat) (w : Widgets) : M Dashboard :=
  df_filtered <- filter_section df w ;;
  f <- read df_filtered ;;
  t <- read df ;;
  ret {| out_total_offers := total_offers f;
         out_joined := joined f;
         out_join_rate := join_rate f;
         out_avg_hike := avg_hike_text (avg_hike f);
         out_hike_30_plus := hike_30_plus f;
         out_internal_count := internal_count f;
         out_external_count := external_count f;
         out_hike_counts := hike_counts f;
         out_full_trend := full_trend t |}.

(** ** The script as it runs (lines 1-124) *)

Inductive pyval :=
  | PyModule
  | PyFunction
  | PyUploadedFile (sheet : list RawRow)
  | PyStr (s : string)
  | PyDataFrame (o : nat).

Inductive exception :=
  | NameError (name : string)
  | TypeError.

Inductive outcome :=
  | Rendered (d : Dashboard)
  | Halted                    (* st.stop() after the upload warning *)
  | Raised (e : exception).

(** The module globals when line 98 is reached: the imports (lines 1-5),
    [load_data] (line 28, a [def]: its body has not run), [uploaded_file]
    (line 83) and [filter_type] (line 96). No statement in between assigns
    any other name. *)
Definition globals_at_line_98 (file : list RawRow) (w : Widgets) : gmap string pyval :=
  <["filter_type" := PyStr (filter_type w)]>
  (<["uploaded_file" := PyUploadedFile file]>
  (<["load_data" := PyFunction]>
  (<["datetime" := PyModule]>
  (<["go" := PyModule]>
  (<["px" := PyModule]>
  (<["pd" := PyModule]>
  (<["st" := PyModule]> ∅))))))).

(** Evaluating a name. *)
Definition load_name (globals : gmap string pyval) (x : string) : exception + pyval :=
  match globals !! x with
  | Some v => inr v
  | None => inl (NameError x)
  end.

(** One run of the script: [uploaded_file] is what the uploader returns
    ([None] before any upload). Both branches of line 98 start by evaluating
    the name [df] (lines 99 and 116). No DataFrame object exists yet. *)
Definition script (uploaded_file : option (list RawRow)) (w : Widgets) : outcome :=
  match uploaded_file with
  | None => Halted
  | Some file =>
      match load_name (globals_at_line_98 file w) "df" with
      | inl e => Raised e
      | inr (PyDataFrame df) =>
          match page df w ∅ with
          | Some (d, _) => Rendered d
          | None => Raised TypeError
          end
      | inr _ => Raised TypeError
      end
  end.

(** ** Specification vocabulary *)

(** [runs c h Q]: from the heap [h] the computation [c] returns, every
    object of [h] is still there with the same content, and the result and
    the final heap satisfy [Q]. *)
Definition runs {A} (c : M A) (h : gmap nat DataFrame)
    (Q : A → gmap nat DataFrame → Prop) : Prop :=
  ∃ a h', c h = Some (a, h') ∧ h ⊆ h' ∧ Q a h'.

Global Instance by_month_total : Total by_month.
Proof. intros a b. apply (total String.le). Qed.

Global Instance by_month_trans : Transitive by_month.
Proof. intros a b c. unfold by_month. apply transitivity. Qed.

(** The order of binary64 numbers that are not NaN, read off a key: the
    class (-inf, negative, zero, positive, +inf), then exponent and
    mantissa, both negated for negative numbers. [SFcompare] compares the
    keys lexicographically. *)
Definition fkey (x : float64) : Z * Z * Z :=
  match x with
  | S754_infinity true => (0, 0, 0)
  | S754_finite true m e => (1, - e, - Z.pos m)
  | S754_zero _ => (2, 0, 0)
  | S754_nan => (2, 0, 0)
  | S754_finite false m e => (3, e, Z.pos m)
  | S754_infinity false => (4, 0, 0)
  end%Z.

Definition key_lt (k1 k2 : Z * Z * Z) : Prop :=
  (k1.1.1 < k2.1.1
   ∨ (k1.1.1 = k2.1.1
      ∧ (k1.1.2 < k2.1.2 ∨ (k1.1.2 = k2.1.2 ∧ k1.2 < k2.2))))%Z.

Definition key_le (k1 k2 : Z * Z * Z) : Prop := key_lt k1 k2 ∨ k1 = k2.


(** A row whose derived columns are the ones [load_data] computes. *)
Definition normalized (r : OfferRecord) : Prop :=
  ∃ t raw, r = normalize t raw.

(** The source of a row, when it is a string. *)
Definition source_name (r : OfferRecord) : string :=
  match Source r with
  | CStr s => s
  | _ => ""
  end.

(** ** Sample data *)

Definition raw_row (d : option date) (cur off : float64) (st src : cell) : RawRow :=
  {| raw_Offer_Date := (λ d, Stamp d 0) <$> d;
     raw_Current_Fixed_CTC := cur;
     raw_Offered := off;
     raw_Status := st;
     raw_Source := src |}.

(** Five rows: a joined referral with a 30% hike, a declined offer with a
    zero current CTC, a row whose date did not parse, a joined candidate
    without current CTC, and an earlier offer with a pay cut. *)
Definition sample_raw : RawRow :=
  raw_row (Some (Date 2025 1 15)) (of_Z 10) (of_Z 13) (CStr "Joined") (CStr "Employee Referral").

Definition sample_record : OfferRecord := normalize (Stamp (Date 2025 1 15) 0) sample_raw.

(** The fourth row of the sample sheet, as loaded. *)
Definition sample_record_jan20 : OfferRecord :=
  normalize (Stamp (Date 2025 1 20) 0)
    (raw_row (Some (Date 2025 1 20)) NaN (of_Z 25) (CStr "Joined") (CStr "direct")).

Definition sample_sheet : list RawRow :=
  [ sample_raw;
    raw_row (Some (Date 2025 3 2)) (of_Z 0) (of_Z 10) (CStr "Declined") (CStr "Naukri");
    raw_row None (of_Z 8) (of_Z 12) (CStr "Joined") (CStr "Direct");
    raw_row (Some (Date 2025 1 20)) NaN (of_Z 25) (CStr "Joined") (CStr "direct");
    raw_row (Some (Date 2024 11 5)) (of_Z 20) (of_Z 18) (CStr "Offered") CNaN ].

Definition sample_df : DataFrame := load_data sample_sheet.

(** A sheet whose only row has no usable current CTC. *)
Definition no_hike_sheet : list RawRow :=
  [ raw_row (Some (Date 2025 3 2)) (of_Z 0) (of_Z 10) (CStr "Joined") (CStr "Direct") ].

(** A raise from 3 to 3.9 (the double nearest to 3.9): the exact quotient
    is below 30, the binary64 hike is 30. *)
Definition rounding_sheet : list RawRow :=
  [ raw_row (Some (Date 2025 2 3)) (of_Z 3) (fdiv (of_Z 39) (of_Z 10))
      (CStr "Joined") (CStr "Direct") ].

(** Two rows whose hike overflows, to +inf and to -inf. *)
Definition overflow_sheet : list RawRow :=
  [ raw_row (Some (Date 2025 2 3)) (of_Z 1) (of_Z (10 ^ 307)) (CStr "Joined") (CStr "Direct");
    raw_row (Some (Date 2025 2 4)) (of_Z 1) (of_Z (- 10 ^ 307)) (CStr "Joined") (CStr "Direct") ].

Definition months_widgets (sel : list string) : Widgets :=
  {| filter_type := "Select Months"; date_range := []; selected_months := sel |}.

Definition dates_widgets (range : list date) : Widgets :=
  {| filter_type := "Date Range"; date_range := range; selected_months := [] |}.

(** The five CTC bin labels. *)
Definition ctc_labels : list string := ["Unknown"; "<10L"; "10-20L"; "20-30L"; "≥30L"].

(** * Properties *)

(** Closed decidable goals (membership, NoDup) by evaluation. *)
Ltac by_decide := apply (bool_decide_unpack _); vm_compute; exact I.

(** ** The order of binary64 numbers *)

Lemma SFcompare_key (x y : float64) :
  isna x = false → isna y = false →
  (SFcompare x y = Some Lt ↔ key_lt (fkey x) (fkey y))
  ∧ (SFcompare x y = Some Eq ↔ fkey x = fkey y)
  ∧ (SFcompare x y = Some Gt ↔ key_lt (fkey y) (fkey x)).
Proof.
  intros Hx Hy. unfold key_lt.
  destruct x as [sx|sx| |sx mx ex], y as [sy|sy| |sy my ey]; try done;
    try destruct sx; try destruct sy; simpl;
    try (split_and!; split; intros H; try done; try (injection H as H);
         try lia; try congruence; fail).
  all: destruct (Z.compare_spec ex ey);
    try (split_and!; split; intros H'; try done; try (injection H' as H');
         try lia; try congruence; fail).
  all: change (Pos.compare_cont Eq mx my) with (Pos.compare mx my);
    destruct (Pos.compare_spec mx my); simpl;
    split_and!; split; intros H'; try done; try (injection H' as H');
    try lia; try congruence.
Qed.

Lemma fkey_range (x : float64) :
  (0 ≤ (fkey x).1.1 ≤ 4)%Z
  ∧ (((fkey x).1.1 = 0 ∨ (fkey x).1.1 = 2 ∨ (fkey x).1.1 = 4)%Z →
     (fkey x).1.2 = 0%Z ∧ (fkey x).2 = 0%Z).
Proof. destruct x as [[]|[]| |[] m e]; simpl; split; try lia. Qed.

Lemma fltb_key (x y : float64) :
  SFltb x y = true ↔ isna x = false ∧ isna y = false ∧ key_lt (fkey x) (fkey y).
Proof.
  unfold SFltb.
  destruct (isna x) eqn:Hx; [destruct x; try done; split; [done | by intros (? & _)]|].
  destruct (isna y) eqn:Hy;
    [destruct x, y; try done; split; try done; by intros (_ & ? & _)|].
  destruct (SFcompare_key x y Hx Hy) as (Hlt & Heq & Hgt).
  destruct (SFcompare x y) as [[| |]|] eqn:Hc.
  - split; [done|]. intros (_ & _ & Hk).
    assert (fkey x = fkey y) as E by by apply Heq.
    rewrite E in Hk. unfold key_lt in Hk. lia.
  - split; [|done]. intros _. split_and!; [done..|]. by apply Hlt.
  - split; [done|]. intros (_ & _ & Hk).
    assert (key_lt (fkey y) (fkey x)) as E by by apply Hgt.
    unfold key_lt in *. lia.
  - destruct x, y; done.
Qed.

Lemma fleb_key (x y : float64) :
  SFleb x y = true ↔ isna x = false ∧ isna y = false ∧ key_le (fkey x) (fkey y).
Proof.
  unfold SFleb, key_le.
  destruct (isna x) eqn:Hx; [destruct x; try done; split; [done | by intros (? & _)]|].
  destruct (isna y) eqn:Hy;
    [destruct x, y; try done; split; try done; by intros (_ & ? & _)|].
  destruct (SFcompare_key x y Hx Hy) as (Hlt & Heq & Hgt).
  destruct (SFcompare x y) as [[| |]|] eqn:Hc.
  - split; [|done]. intros _. split_and!; [done..|]. right. by apply Heq.
  - split; [|done]. intros _. split_and!; [done..|]. left. by apply Hlt.
  - split; [done|]. intros (_ & _ & [Hk | Hk]).
    + assert (key_lt (fkey y) (fkey x)) as E by by apply Hgt.
      unfold key_lt in *. lia.
    + assert (key_lt (fkey y) (fkey x)) as E by by apply Hgt.
      rewrite Hk in E. unfold key_lt in E. lia.
  - destruct x, y; done.
Qed.

Lemma feqb_key (x y : float64) :
  SFeqb x y = true ↔ isna x = false ∧ isna y = false ∧ fkey x = fkey y.
Proof.
  unfold SFeqb.
  destruct (isna x) eqn:Hx; [destruct x; try done; split; [done | by intros (? & _)]|].
  destruct (isna y) eqn:Hy;
    [destruct x, y; try done; split; try done; by intros (_ & ? & _)|].
  destruct (SFcompare_key x y Hx Hy) as (Hlt & Heq & Hgt).
  destruct (SFcompare x y) as [[| |]|] eqn:Hc.
  - split; [|done]. intros _. split_and!; [done..|]. by apply Heq.
  - split; [done|]. intros (_ & _ & Hk).
    assert (key_lt (fkey x) (fkey y)) as E by by apply Hlt.
    rewrite Hk in E. unfold key_lt in E. lia.
  - split; [done|]. intros (_ & _ & Hk).
    assert (key_lt (fkey y) (fkey x)) as E by by apply Hgt.
    rewrite Hk in E. unfold key_lt in E. lia.
  - destruct x, y; done.
Qed.

(** The keys of the constants of the code are evaluated. *)
Ltac fkeys :=
  repeat match goal with
         | H : context [fkey ?c] |- _ =>
             lazymatch c with
             | of_Z _ => let k := eval vm_compute in (fkey c) in change (fkey c) with k in H
             | inf => let k := eval vm_compute in (fkey c) in change (fkey c) with k in H
             | neg_inf => let k := eval vm_compute in (fkey c) in change (fkey c) with k in H
             end
         | |- context [fkey ?c] =>
             lazymatch c with
             | of_Z _ => let k := eval vm_compute in (fkey c) in change (fkey c) with k
             | inf => let k := eval vm_compute in (fkey c) in change (fkey c) with k
             | neg_inf => let k := eval vm_compute in (fkey c) in change (fkey c) with k
             end
         end.

(** Order goals on binary64 variables and constants: through the keys, by
    linear arithmetic. The variables must occur in comparisons only. *)
Ltac forder :=
  repeat match goal with
         | H : _ = false |- _ => apply not_true_iff_false in H
         | |- _ = false => apply not_true_iff_false
         end;
  rewrite ?fltb_key, ?fleb_key, ?feqb_key in *;
  fkeys;
  repeat match goal with
         | x : float64 |- _ =>
             let c := fresh "c" in let a := fresh "a" in let b := fresh "b" in
             destruct (isna x); [try tauto; try done|];
             pose proof (fkey_range x);
             destruct (fkey x) as [[c a] b]; clear x
         end;
  unfold key_le, key_lt in *; simpl in *;
  rewrite ?pair_equal_spec in *;
  try tauto; try lia; try (intuition lia).

(** ** The loader *)

Lemma load_rows_normalized (sheet : list RawRow) (k i : nat) (r : OfferRecord) :
  (i, r) ∈ load_rows k sheet →
  ∃ raw t, raw ∈ sheet ∧ raw_Offer_Date raw = Some t ∧ r = normalize t raw.
Proof.
  revert k. induction sheet as [|raw rest IH]; intros k Hin; simpl in Hin.
  - by apply elem_of_nil in Hin.
  - destruct (raw_Offer_Date raw) as [t|] eqn:Hd.
    + apply elem_of_cons in Hin as [Heq | Hin].
      * inversion Heq; subst. exists raw, t. split_and!; [left | done | done].
      * destruct (IH _ Hin) as (raw' & t' & ? & ? & ?).
        exists raw', t'. split_and!; [by right | done | done].
    + destruct (IH _ Hin) as (raw' & t' & ? & ? & ?).
      exists raw', t'. split_and!; [by right | done | done].
Qed.

Lemma gt_zero_not_le (c : float64) :
  SFltb (of_Z 0) c = true → SFleb c (of_Z 0) = true → False.
Proof. intros ??. forder. Qed.

(** C2. For every row of the normalized table: when both CTC values are
    present and current > 0 the hike percent is the value of
    (offered - current) / current * 100, computed in binary64 as the code
    computes it; it is missing (pd.NA) when current is missing, when current
    is zero or negative, or when offered is missing; and it is assigned
    exactly in the first case. *)
Theorem hike_percent_defined_iff_valid (sheet : list RawRow) (i : nat) (r : OfferRecord) :
  (i, r) ∈ load_data sheet →
  (isna (Current_Fixed_CTC r) = false → isna (Offered r) = false →
   SFltb (of_Z 0) (Current_Fixed_CTC r) = true →
     Hike_Calculated r
     = Some (fmul (fdiv (fsub (Offered r) (Current_Fixed_CTC r)) (Current_Fixed_CTC r))
                  (of_Z 100)))
  ∧ (isna (Current_Fixed_CTC r) = true → Hike_Calculated r = None)
  ∧ (SFleb (Current_Fixed_CTC r) (of_Z 0) = true → Hike_Calculated r = None)
  ∧ (isna (Offered r) = true → Hike_Calculated r = None)
  ∧ (is_Some (Hike_Calculated r) ↔
       isna (Current_Fixed_CTC r) = false ∧ isna (Offered r) = false
       ∧ SFltb (of_Z 0) (Current_Fixed_CTC r) = true).
Proof.
  intros Hin. apply load_rows_normalized in Hin as (raw & t & _ & _ & ->).
  simpl. unfold pct_hike, valid, notna, gt_scalar.
  set (c := raw_Current_Fixed_CTC raw). set (o := raw_Offered raw).
  assert (¬ is_Some (@None float64)) as Hnone by (by intros [? ?]).
  destruct (isna c) eqn:Hc; simpl.
  { split_and!; try done. split; [done|]. by intros (? & ? & ?). }
  destruct (isna o) eqn:Ho; simpl.
  { split_and!; try done. split; [done|]. by intros (? & ? & ?). }
  destruct (SFltb (of_Z 0) c) eqn:Hpos.
  - split_and!; try done.
    all: try (intros Hle; exfalso; by eapply gt_zero_not_le).
    all: try (split; [done | by eexists]).
  - split_and!; try done. split; [done|]. by intros (? & ? & ?).
Qed.

Lemma hike_percent_defined_iff_valid_witness :
  Hike_Calculated sample_record = Some (of_Z 30).
Proof.
  etrans.
  - refine (proj1 (hike_percent_defined_iff_valid sample_sheet 0 sample_record _) _ _ _).
    + left.
    + reflexivity.
    + reflexivity.
    + reflexivity.
  - vm_compute. reflexivity.
Defined.

(** The hike is the binary64 value, not the exact quotient: from 3 to 3.9
    it is 30 on the nose, and a quotient too large for binary64 is +inf or
    -inf. *)
Example hike_of_3_to_3_9 :
  Hike_Calculated <$> records (load_data rounding_sheet) = [Some (of_Z 30)].
Proof. vm_compute. reflexivity. Qed.

Example hike_overflows :
  Hike_Calculated <$> records (load_data overflow_sheet) = [Some inf; Some neg_inf].
Proof. vm_compute. reflexivity. Qed.

Lemma ctc_bin_order (c : float64) :
  (SFltb c (of_Z 10) = true → SFltb c (of_Z 20) = true ∧ SFltb c (of_Z 30) = true
                              ∧ SFleb (of_Z 10) c = false)
  ∧ (SFltb c (of_Z 20) = true → SFltb c (of_Z 30) = true ∧ SFleb (of_Z 20) c = false)
  ∧ (SFltb c (of_Z 30) = true → SFleb (of_Z 30) c = false)
  ∧ (isna c = false → SFltb c (of_Z 10) = false → SFleb (of_Z 10) c = true)
  ∧ (isna c = false → SFltb c (of_Z 20) = false → SFleb (of_Z 20) c = true)
  ∧ (isna c = false → SFltb c (of_Z 30) = false → SFleb (of_Z 30) c = true).
Proof.
  split_and!; intros; try split_and!; forder.
Qed.

Lemma ctc_bin_in_labels (c : float64) : ctc_bin c ∈ ctc_labels.
Proof. unfold ctc_bin. repeat case_match; by_decide. Qed.

(** C3. The CTC bin is one of five pairwise distinct labels, so every value
    gets exactly one; it is Unknown exactly when the offered CTC is missing
    (NaN), and the numeric bins are [c < 10], [10 <= c < 20], [20 <= c < 30]
    and [30 <= c]. *)
Theorem ctc_bin_partition (ctc : float64) :
  NoDup ctc_labels
  ∧ ctc_bin ctc ∈ ctc_labels
  ∧ (ctc_bin ctc = "Unknown" ↔ isna ctc = true)
  ∧ (ctc_bin ctc = "<10L" ↔ SFltb ctc (of_Z 10) = true)
  ∧ (ctc_bin ctc = "10-20L" ↔ SFleb (of_Z 10) ctc = true ∧ SFltb ctc (of_Z 20) = true)
  ∧ (ctc_bin ctc = "20-30L" ↔ SFleb (of_Z 20) ctc = true ∧ SFltb ctc (of_Z 30) = true)
  ∧ (ctc_bin ctc = "≥30L" ↔ SFleb (of_Z 30) ctc = true).
Proof.
  split; [by_decide|]. split; [apply ctc_bin_in_labels|]. unfold ctc_bin.
  destruct (ctc_bin_order ctc) as (H10 & H20 & H30 & G10 & G20 & G30).
  destruct (isna ctc) eqn:Hna.
  { clear H10 H20 H30 G10 G20 G30. destruct ctc; try discriminate Hna.
    split_and!; by_decide. }
  destruct (SFltb ctc (of_Z 10)) eqn:E10.
  { destruct (H10 eq_refl) as (E20 & E30 & L10).
    destruct (H20 E20) as [_ L20]. specialize (H30 E30).
    split_and!; (split; intros H; try done; destruct_and?); congruence. }
  specialize (G10 eq_refl eq_refl).
  destruct (SFltb ctc (of_Z 20)) eqn:E20.
  { destruct (H20 eq_refl) as [E30 L20]. specialize (H30 E30).
    split_and!; (split; intros H; try done; destruct_and?); congruence. }
  specialize (G20 eq_refl eq_refl).
  destruct (SFltb ctc (of_Z 30)) eqn:E30.
  { specialize (H30 eq_refl).
    split_and!; (split; intros H; try done; destruct_and?); congruence. }
  specialize (G30 eq_refl eq_refl).
  split_and!; (split; intros H; try done; destruct_and?); congruence.
Qed.

Lemma classify_source_Internal (x : cell) :
  classify_source x = "Internal" ↔ ∃ s, x = CStr s ∧ s ∈ internal_sources.
Proof.
  unfold classify_source, cell_in. destruct x as [s| |].
  - case_bool_decide as Hs.
    + split; [intros _; by exists s | done].
    + split; [done | intros (s' & [= <-] & ?); done].
  - split; [done | by intros (? & ? & ?)].
  - split; [done | by intros (? & ? & ?)].
Qed.

Lemma classify_source_two (x : cell) :
  classify_source x = "Internal" ∨ classify_source x = "External".
Proof. unfold classify_source. destruct (cell_in x internal_sources); auto. Qed.



(** The scenarios of the specification, run through [load_data]. *)
Example scenario_hike_30_bin_10_20 :
  CTC_Bin sample_record = "10-20L"
  ∧ Source_Type sample_record = "Internal"
  ∧ Hike_Calculated sample_record = Some (of_Z 30).
Proof. split_and!; by vm_compute. Qed.

Example scenario_zero_current_no_hike :
  Hike_Calculated <$> records (load_data no_hike_sheet) = [None].
Proof. by vm_compute. Qed.

Example scenario_unparsed_date_dropped :
  index sample_df = [0; 1; 3; 4]%nat
  ∧ Month <$> records sample_df = ["Jan 2025"; "Mar 2025"; "Jan 2025"; "Nov 2024"]
  ∧ all_months sample_df = ["Jan 2025"; "Mar 2025"; "Nov 2024"].
Proof. split_and!; by vm_compute. Qed.

(** ** The script *)

(** C1 (defect). With a file uploaded, the run never reaches the filter and
    aggregation stages: no statement binds [df] ([load_data] is defined but
    never called), so evaluating [df] at the start of the filter section
    raises NameError, whatever the file and the widget values. Without a
    file the run halts at the upload check. *)
Theorem script_raises_NameError_df (file : list RawRow) (w : Widgets) :
  script (Some file) w = Raised (NameError "df")
  ∧ script None w = Halted.
Proof. split; reflexivity. Qed.

(** ** Dates *)

Ltac date_lia :=
  unfold ts_min, ts_max, ts_leb, date_leb, date_ltb, date_eqb in *; simpl in *;
  repeat match goal with
         | H : context [if ?b then _ else _] |- _ => destruct b eqn:?
         | |- context [if ?b then _ else _] => destruct b eqn:?
         end;
  rewrite ?orb_true_iff, ?andb_true_iff, ?orb_false_iff, ?andb_false_iff,
    ?Z.ltb_lt, ?Z.eqb_eq, ?Z.leb_le, ?Z.ltb_ge, ?Z.eqb_neq, ?Z.leb_gt in *;
  simpl in *; lia.

Lemma ts_leb_trans (a b c : Timestamp) :
  ts_leb a b = true → ts_leb b c = true → ts_leb a c = true.
Proof. destruct a as [[]], b as [[]], c as [[]]. intros ??. date_lia. Qed.

Lemma ts_leb_refl (a : Timestamp) : ts_leb a a = true.
Proof. destruct a as [[]]. date_lia. Qed.

Lemma ts_min_le_l (a b : Timestamp) : ts_leb (ts_min a b) a = true.
Proof. destruct a as [[]], b as [[]]. date_lia. Qed.

Lemma ts_min_le_r (a b : Timestamp) : ts_leb (ts_min a b) b = true.
Proof. destruct a as [[]], b as [[]]. date_lia. Qed.

Lemma ts_max_ge_l (a b : Timestamp) : ts_leb a (ts_max a b) = true.
Proof. destruct a as [[]], b as [[]]. date_lia. Qed.

Lemma ts_max_ge_r (a b : Timestamp) : ts_leb b (ts_max a b) = true.
Proof. destruct a as [[]], b as [[]]. date_lia. Qed.

Lemma ts_leb_date_leb (a b : Timestamp) :
  ts_leb a b = true → date_leb (ts_date a) (ts_date b) = true.
Proof. destruct a as [[]], b as [[]]. intros ?. date_lia. Qed.

Lemma foldl_ts_min_le_init (l : list Timestamp) (a : Timestamp) :
  ts_leb (foldl ts_min a l) a = true.
Proof.
  revert a. induction l as [|b l IH]; intros a; simpl.
  - apply ts_leb_refl.
  - eapply ts_leb_trans; [apply IH | apply ts_min_le_l].
Qed.

Lemma foldl_ts_max_ge_init (l : list Timestamp) (a : Timestamp) :
  ts_leb a (foldl ts_max a l) = true.
Proof.
  revert a. induction l as [|b l IH]; intros a; simpl.
  - apply ts_leb_refl.
  - eapply ts_leb_trans; [apply ts_max_ge_l | apply IH].
Qed.

Lemma series_min_le (l : list Timestamp) (m x : Timestamp) :
  series_min l = Some m → x ∈ l → ts_leb m x = true.
Proof.
  destruct l as [|a l]; [done|]. simpl. intros [= <-] Hx.
  apply elem_of_cons in Hx as [-> | Hx]; [apply foldl_ts_min_le_init|].
  revert a. induction l as [|b l IH]; intros a; [by apply elem_of_nil in Hx|].
  simpl. apply elem_of_cons in Hx as [-> | Hx].
  - eapply ts_leb_trans; [apply foldl_ts_min_le_init | apply ts_min_le_r].
  - by apply IH.
Qed.

Lemma series_max_ge (l : list Timestamp) (m x : Timestamp) :
  series_max l = Some m → x ∈ l → ts_leb x m = true.
Proof.
  destruct l as [|a l]; [done|]. simpl. intros [= <-] Hx.
  apply elem_of_cons in Hx as [-> | Hx]; [apply foldl_ts_max_ge_init|].
  revert a. induction l as [|b l IH]; intros a; [by apply elem_of_nil in Hx|].
  simpl. apply elem_of_cons in Hx as [-> | Hx].
  - eapply ts_leb_trans; [apply ts_max_ge_r | apply foldl_ts_max_ge_init].
  - by apply IH.
Qed.

(** ** Tables *)

Lemma records_reset_index (t : DataFrame) : records (reset_index t) = records t.
Proof.
  unfold records, reset_index. rewrite fmap_imap.
  rewrite <- (imap_const snd t). by apply imap_ext.
Qed.

Lemma mask_select_all (mask : OfferRecord → bool) (t : DataFrame) :
  (∀ i r, (i, r) ∈ t → mask r = true) → mask_select mask t = t.
Proof.
  unfold mask_select. induction t as [|[i r] t IH]; intros Hall; [done|].
  rewrite filter_cons_True.
  - f_equal. apply IH. intros j r' Hin. apply (Hall j). by right.
  - simpl. rewrite (Hall i r); [done | left].
Qed.

Lemma records_mask_select_sublist (mask : OfferRecord → bool) (t : DataFrame) :
  records (mask_select mask t) `sublist_of` records t.
Proof. unfold records, mask_select. apply fmap_sublist, sublist_filter. Qed.

(** ** Running a computation on a heap *)

Lemma runs_ret {A} (a : A) h (Q : A → gmap nat DataFrame → Prop) :
  Q a h → runs (ret a) h Q.
Proof. intros HQ. by exists a, h. Qed.

Lemma runs_bind {A B} (c : M A) (k : A → M B) h (Q : B → gmap nat DataFrame → Prop) :
  runs c h (λ a h1, runs (k a) h1 Q) → runs (bind c k) h Q.
Proof.
  intros (a & h1 & Hc & Hsub & (b & h2 & Hk & Hsub' & HQ)).
  exists b, h2. unfold bind. rewrite Hc. split_and!; [done | by etrans | done].
Qed.

Lemma runs_read (o : nat) (t : DataFrame) h (Q : DataFrame → gmap nat DataFrame → Prop) :
  h !! o = Some t → Q t h → runs (read o) h Q.
Proof. intros Ho HQ. exists t, h. unfold read. by rewrite Ho. Qed.

Lemma runs_new (t : DataFrame) h (Q : nat → gmap nat DataFrame → Prop) :
  (∀ o, h !! o = None → Q o (<[o := t]> h)) → runs (new t) h Q.
Proof.
  intros HQ. assert (h !! fresh (dom h) = None) as Hfresh.
  { apply not_elem_of_dom, is_fresh. }
  exists (fresh (dom h)), (<[fresh (dom h) := t]> h).
  split_and!; [done | by apply insert_subseteq | by apply HQ].
Qed.

Lemma runs_wand {A} (c : M A) h (Q Q' : A → gmap nat DataFrame → Prop) :
  runs c h Q → (∀ a h', h ⊆ h' → Q a h' → Q' a h') → runs c h Q'.
Proof. intros (a & h' & ? & ? & ?) HQ. exists a, h'. split_and!; auto. Qed.

(** Each pandas call allocates its result and leaves its argument alone. *)
Lemma runs_derive (f : DataFrame → DataFrame) (o : nat) (t : DataFrame) h :
  h !! o = Some t →
  runs (t' <- read o ;; new (f t')) h
       (λ o' h', h !! o' = None ∧ h' !! o' = Some (f t)).
Proof.
  intros Ho. apply runs_bind. eapply runs_read; [done|].
  apply runs_new. intros o' Hn. split; [done | apply lookup_insert_eq].
Qed.

Lemma filter_section_runs (df : nat) (t : DataFrame) (w : Widgets) h :
  h !! df = Some t →
  runs (filter_section df w) h
       (λ o h', h !! o = None ∧ h' !! o = Some (reset_index (filter_rows t w))).
Proof.
  intros Hdf. unfold filter_section. apply runs_bind.
  assert (runs (df_copy df) h (λ o h1, runs (df_reset_index o) h1
            (λ o' h', h !! o' = None ∧ h' !! o' = Some (reset_index t)))) as Hcopy.
  { eapply runs_wand; [by apply (runs_derive id)|].
    intros o h1 Hsub [_ Ho]. eapply runs_wand; [by apply (runs_derive reset_index)|].
    intros o' h2 _ [Hn Ho']. split; [by eapply lookup_weaken_None | done]. }
  assert (∀ mask, runs (sel <- df_getitem df mask ;; df_copy sel) h
            (λ o h1, runs (df_reset_index o) h1
               (λ o' h', h !! o' = None
                         ∧ h' !! o' = Some (reset_index (mask_select mask t))))) as Hsel.
  { intros mask. apply runs_bind.
    eapply runs_wand; [by apply (runs_derive (mask_select mask))|].
    intros o1 h1 Hsub1 [_ Ho1].
    eapply runs_wand; [by apply (runs_derive id)|].
    intros o2 h2 Hsub2 [_ Ho2].
    eapply runs_wand; [by apply (runs_derive reset_index)|].
    intros o3 h3 _ [Hn Ho3]. split; [|done].
    eapply lookup_weaken_None; [|exact Hsub1].
    by eapply lookup_weaken_None. }
  unfold filter_rows. destruct (decide (filter_type w = "Date Range")).
  - destruct (date_range w) as [|d1 [|d2 [|d3 ds]]]; auto.
  - destruct (selected_months w); auto.
Qed.

Lemma page_runs (df : nat) (t : DataFrame) (w : Widgets) h :
  h !! df = Some t →
  runs (page df w) h
       (λ d h', h' !! df = Some t
                ∧ out_full_trend d = full_trend t
                ∧ out_hike_counts d = hike_counts (reset_index (filter_rows t w))
                ∧ out_join_rate d = join_rate (reset_index (filter_rows t w))).
Proof.
  intros Hdf. unfold page. apply runs_bind.
  eapply runs_wand; [by apply filter_section_runs|].
  intros o h1 Hsub [_ Ho]. apply runs_bind. eapply runs_read; [done|].
  apply runs_bind. eapply runs_read; [by eapply lookup_weaken|].
  apply runs_ret. split_and!; [by eapply lookup_weaken | done..].
Qed.

(** ** The filter *)

Lemma elem_of_unique_from (seen l : list string) (x : string) :
  x ∈ unique_from seen l ↔ x ∈ l ∧ x ∉ seen.
Proof.
  revert seen. induction l as [|y l IH]; intros seen; simpl.
  - split; [by intros ?%elem_of_nil | by intros [?%elem_of_nil _]].
  - destruct (decide (y ∈ seen)) as [Hy | Hy].
    + rewrite IH, elem_of_cons. split.
      * intros [? ?]. auto.
      * intros [[-> | ?] ?]; done.
    + rewrite !elem_of_cons, IH, elem_of_cons. split.
      * intros [-> | [? Hn]]; [auto|]. split; [auto|]. intros ?. apply Hn. auto.
      * intros [[-> | ?] Hn]; [auto|].
        destruct (decide (x = y)) as [-> | Hne]; [auto|].
        right. split; [done|]. intros [? | ?]; done.
Qed.

Lemma elem_of_unique (l : list string) (x : string) : x ∈ unique l ↔ x ∈ l.
Proof.
  unfold unique. rewrite elem_of_unique_from. split; [by intros [? _]|].
  intros ?. split; [done | apply not_elem_of_nil].
Qed.

Lemma NoDup_unique_from (seen l : list string) : NoDup (unique_from seen l).
Proof.
  revert seen. induction l as [|y l IH]; intros seen; simpl; [constructor|].
  destruct (decide (y ∈ seen)); [apply IH|].
  constructor; [|apply IH]. rewrite elem_of_unique_from.
  intros [_ Hn]. apply Hn. left.
Qed.

Lemma elem_of_sorted (l : list string) (x : string) : x ∈ sorted l ↔ x ∈ l.
Proof. unfold sorted. by rewrite merge_sort_Permutation. Qed.

Lemma Month_in_all_months (t : DataFrame) (i : nat) (r : OfferRecord) :
  (i, r) ∈ t → Month r ∈ all_months t.
Proof.
  intros Hin. unfold all_months, records.
  apply elem_of_sorted, elem_of_unique, list_elem_of_fmap.
  exists r. split; [done|]. apply list_elem_of_fmap. by exists (i, r).
Qed.

Lemma Offer_Date_in_column (t : DataFrame) (i : nat) (r : OfferRecord) :
  (i, r) ∈ t → Offer_Date r ∈ Offer_Date <$> records t.
Proof.
  intros Hin. apply list_elem_of_fmap. exists r. split; [done|].
  apply list_elem_of_fmap. by exists (i, r).
Qed.

Lemma filter_rows_sublist (t : DataFrame) (w : Widgets) :
  records (filter_rows t w) `sublist_of` records t.
Proof.
  unfold filter_rows. destruct (decide _).
  - destruct (date_range w) as [|d1 [|d2 [|d3 ds]]];
      try done; apply records_mask_select_sublist.
  - destruct (selected_months w); [done | apply records_mask_select_sublist].
Qed.

Lemma filter_rows_all_months (t : DataFrame) (w : Widgets) :
  filter_type w ≠ "Date Range" → selected_months w = all_months t →
  filter_rows t w = t.
Proof.
  intros Hft Hsel. unfold filter_rows. rewrite decide_False by done.
  rewrite Hsel. destruct (all_months t) eqn:Hall; [done|]. rewrite <- Hall.
  apply mask_select_all. intros i r Hin. unfold month_isin.
  apply bool_decide_eq_true. by eapply Month_in_all_months.
Qed.

Lemma filter_rows_no_month (t : DataFrame) (w : Widgets) :
  filter_type w ≠ "Date Range" → selected_months w = [] → filter_rows t w = t.
Proof. intros Hft Hsel. unfold filter_rows. by rewrite decide_False, Hsel. Qed.

Lemma filter_rows_one_date (t : DataFrame) (w : Widgets) (d : date) :
  filter_type w = "Date Range" → date_range w = [d] → filter_rows t w = t.
Proof. intros Hft Hr. unfold filter_rows. by rewrite decide_True, Hr. Qed.

Lemma filter_rows_full_range (t : DataFrame) (w : Widgets) (lo hi : date) :
  filter_type w = "Date Range" →
  min_date t = Some lo → max_date t = Some hi → date_range w = [lo; hi] →
  filter_rows t w = t.
Proof.
  intros Hft Hlo Hhi Hr. unfold filter_rows. rewrite decide_True, Hr by done.
  apply mask_select_all. intros i r Hin. unfold in_date_range.
  unfold min_date in Hlo. unfold max_date in Hhi.
  destruct (series_min _) as [m|] eqn:Hm; [|done].
  destruct (series_max _) as [M|] eqn:HM; [|done].
  simpl in Hlo, Hhi. injection Hlo as <-. injection Hhi as <-.
  apply andb_true_iff. split; apply ts_leb_date_leb.
  - eapply series_min_le; [done | by eapply Offer_Date_in_column].
  - eapply series_max_ge; [done | by eapply Offer_Date_in_column].
Qed.

(** C5. Taken on the table bound to [df], the filter section returns the
    records of the table unchanged when the selection is the full month
    set, when it is the full date range (minimum to maximum offer date,
    both inclusive), when only one date bound is given and when no month is
    selected; in every case the records it returns are a subsequence of the
    table's records, in the same order. *)
Theorem filter_identity_cases (df : nat) (t : DataFrame) (w : Widgets)
    (h : gmap nat DataFrame) :
  h !! df = Some t →
  ∃ o h' f, filter_section df w h = Some (o, h') ∧ h' !! o = Some f
    ∧ records f `sublist_of` records t
    ∧ (filter_type w ≠ "Date Range" → selected_months w = all_months t →
       records f = records t)
    ∧ (filter_type w = "Date Range" →
       ∀ lo hi, min_date t = Some lo → max_date t = Some hi →
                date_range w = [lo; hi] → records f = records t)
    ∧ (filter_type w = "Date Range" → ∀ d, date_range w = [d] →
       records f = records t)
    ∧ (filter_type w ≠ "Date Range" → selected_months w = [] →
       records f = records t).
Proof.
  intros Hdf.
  destruct (filter_section_runs df t w h Hdf) as (o & h' & Hrun & _ & _ & Ho).
  exists o, h', (reset_index (filter_rows t w)).
  rewrite records_reset_index. split_and!; [done | done | | | | |].
  - apply filter_rows_sublist.
  - intros. by rewrite filter_rows_all_months.
  - intros. by erewrite filter_rows_full_range.
  - intros. by erewrite filter_rows_one_date.
  - intros. by rewrite filter_rows_no_month.
Qed.

Lemma filter_identity_cases_witness :
  ∃ o h' f,
    filter_section 0 (months_widgets (all_months sample_df)) {[0%nat := sample_df]}
      = Some (o, h')
    ∧ h' !! o = Some f ∧ records f = records sample_df.
Proof.
  destruct (filter_identity_cases 0 sample_df
              (months_widgets (all_months sample_df)) {[0%nat := sample_df]})
    as (o & h' & f & Hrun & Ho & _ & Hall & _).
  - reflexivity.
  - exists o, h', f. split_and!; [done | done |]. apply Hall; [done | reflexivity].
Defined.

(** C9. The filter section leaves the base table alone: whatever the mode
    and the parameters, the object bound to [df] holds the same rows, values
    and order afterwards, every other object is untouched too, and the
    filtered table is a new object, distinct from [df], built from the
    selected rows. *)
Theorem filter_leaves_base_table (df : nat) (t : DataFrame) (w : Widgets)
    (h : gmap nat DataFrame) :
  h !! df = Some t →
  ∃ o h', filter_section df w h = Some (o, h')
    ∧ h' !! df = Some t
    ∧ (∀ o' t', h !! o' = Some t' → h' !! o' = Some t')
    ∧ o ≠ df ∧ h !! o = None
    ∧ h' !! o = Some (reset_index (filter_rows t w)).
Proof.
  intros Hdf.
  destruct (filter_section_runs df t w h Hdf) as (o & h' & Hrun & Hsub & Hn & Ho).
  exists o, h'. split_and!; [done | by eapply lookup_weaken | | | done | done].
  - intros o' t' ?. by eapply lookup_weaken.
  - intros ->. by rewrite Hdf in Hn.
Qed.

Lemma filter_leaves_base_table_witness :
  ∃ o h',
    filter_section 0 (dates_widgets [Date 2025 1 1; Date 2025 1 31]) {[0%nat := sample_df]}
      = Some (o, h')
    ∧ h' !! 0%nat = Some sample_df ∧ o ≠ 0%nat.
Proof.
  destruct (filter_leaves_base_table 0 sample_df
              (dates_widgets [Date 2025 1 1; Date 2025 1 31]) {[0%nat := sample_df]})
    as (o & h' & Hrun & Hdf & _ & Hne & _).
  - reflexivity.
  - by exists o, h'.
Defined.

(** ** KPIs *)

Lemma filter_fmap {A B} (f : A → B) (P : B → Prop) `{!∀ y, Decision (P y)}
    (l : list A) :
  filter P (f <$> l) = f <$> filter (λ x, P (f x)) l.
Proof.
  induction l as [|x l IH]; [done|]. rewrite fmap_cons, !filter_cons.
  destruct (decide (P (f x))); simpl; by rewrite IH.
Qed.

Lemma length_mask_select (mask : OfferRecord → bool) (P : OfferRecord → Prop)
    `{!∀ r, Decision (P r)} (t : DataFrame) :
  (∀ r, mask r = true ↔ P r) →
  length (mask_select mask t) = length (filter P (records t)).
Proof.
  intros HP. unfold mask_select, records. rewrite filter_fmap, length_fmap.
  f_equal. apply list_filter_iff. intros [i r]. simpl.
  rewrite <- HP. apply Is_true_true.
Qed.

Lemma cell_eq_true (c : cell) (s : string) : cell_eq c s = true ↔ c = CStr s.
Proof.
  destruct c as [s'| |]; simpl; [|done..].
  rewrite bool_decide_eq_true. split; [by intros -> | by intros [= ->]].
Qed.













(** ** Hike histogram *)

(** The bin of a value, by the interval (lo, hi] that holds it; NaN and
    -inf are in none. *)
Lemma cut_hike_cases (x : float64) :
  (SFltb neg_inf x = false ∧ cut bins labels x = None)
  ∨ (SFltb neg_inf x = true ∧ SFleb x (of_Z 0) = true ∧ cut bins labels x = Some "<0%")
  ∨ (SFltb (of_Z 0) x = true ∧ SFleb x (of_Z 15) = true
     ∧ cut bins labels x = Some "0-15%")
  ∨ (SFltb (of_Z 15) x = true ∧ SFleb x (of_Z 30) = true
     ∧ cut bins labels x = Some "15-30%")
  ∨ (SFltb (of_Z 30) x = true ∧ SFleb x (of_Z 50) = true
     ∧ cut bins labels x = Some "30-50%")
  ∨ (SFltb (of_Z 50) x = true ∧ cut bins labels x = Some ">50%").
Proof.
  unfold bins, labels. cbn [cut].
  destruct (isna x) eqn:Hna.
  { destruct x; try discriminate Hna. by left. }
  destruct (SFltb neg_inf x) eqn:Hlo.
  - right. cbn [andb].
    destruct (SFleb x (of_Z 0)) eqn:H0; [by left|]. right.
    assert (SFltb (of_Z 0) x = true) as -> by (clear -Hna H0; forder). cbn [andb].
    destruct (SFleb x (of_Z 15)) eqn:H15; [by left|]. right.
    assert (SFltb (of_Z 15) x = true) as -> by (clear -Hna H15; forder). cbn [andb].
    destruct (SFleb x (of_Z 30)) eqn:H30; [by left|]. right.
    assert (SFltb (of_Z 30) x = true) as -> by (clear -Hna H30; forder). cbn [andb].
    destruct (SFleb x (of_Z 50)) eqn:H50; [by left|]. right.
    assert (SFltb (of_Z 50) x = true) as -> by (clear -Hna H50; forder).
    assert (SFleb x inf = true) as -> by (clear -Hna; forder). done.
  - left. split; [done|]. cbn [andb].
    assert (SFltb (of_Z 0) x = false) as -> by (clear -Hna Hlo; forder).
    assert (SFltb (of_Z 15) x = false) as -> by (clear -Hna Hlo; forder).
    assert (SFltb (of_Z 30) x = false) as -> by (clear -Hna Hlo; forder).
    assert (SFltb (of_Z 50) x = false) as -> by (clear -Hna Hlo; forder). done.
Qed.

Lemma cut_hike_label (x : float64) :
  SFltb neg_inf x = true → ∃ l, l ∈ labels ∧ cut bins labels x = Some l.
Proof.
  intros Hlo.
  destruct (cut_hike_cases x)
    as [[? H] | [(_ & _ & H) | [(_ & _ & H) | [(_ & _ & H) | [(_ & _ & H) | [_ H]]]]]];
    [congruence|..]; eexists; (split; [|exact H]); by_decide.
Qed.

Lemma cut_hike_None (x : float64) :
  SFltb neg_inf x = false → cut bins labels x = None.
Proof.
  intros Hlo.
  destruct (cut_hike_cases x)
    as [[? H] | [(Hx & _ & H) | [(Hx & _ & H) | [(Hx & _ & H) | [(Hx & _ & H) | [Hx H]]]]]];
    [done|..]; clear H; exfalso; forder.
Qed.

Lemma count_fold_lookup (ks : list string) (k : string) :
  default 0%nat
    (foldr (λ k' (m : gmap string nat), <[k' := S (default 0%nat (m !! k'))]> m) ∅ ks !! k)
  = length (filter (λ k', k' = k) ks).
Proof.
  induction ks as [|k' ks IH]; [done|].
  rewrite filter_cons. cbn [foldr].
  destruct (decide (k' = k)) as [-> | Hne].
  - rewrite lookup_insert_eq. simpl. by rewrite IH.
  - by rewrite lookup_insert_ne.
Qed.

Lemma value_counts_lookup (col : list (option string)) (k : string) :
  default 0%nat (value_counts col !! k) = length (filter (λ o, o = Some k) col).
Proof.
  unfold value_counts. rewrite count_fold_lookup.
  induction col as [|o col IH]; [done|].
  rewrite (filter_cons _ o). destruct o as [k'|].
  - change (omap id (Some k' :: col)) with (k' :: omap id col).
    rewrite filter_cons. destruct (decide (k' = k)) as [-> | Hne].
    + rewrite decide_True by done. simpl. by rewrite IH.
    + rewrite decide_False by congruence. done.
  - change (omap id (None :: col)) with (omap id col).
    by rewrite decide_False.
Qed.

Lemma binned_count (xs : list float64) (l : string) :
  default 0%nat (value_counts (cut bins labels <$> xs) !! l)
  = length (filter (λ x, cut bins labels x = Some l) xs).
Proof. by rewrite value_counts_lookup, filter_fmap, length_fmap. Qed.

(** The counts add up to the number of values above -inf. *)
Lemma binned_counts_total (xs : list float64) :
  sum_list ((λ l, length (filter (λ x, cut bins labels x = Some l) xs)) <$> labels)
  = length (filter (λ x, SFltb neg_inf x = true) xs).
Proof.
  pose proof cut_hike_cases as Hcases.
  remember (cut bins labels) as c eqn:Hc. clear Hc.
  induction xs as [|x xs IH]; [done|].
  unfold labels in *. simpl in IH |- *. rewrite !filter_cons.
  destruct (Hcases x)
    as [[Hx H] | [(Hx & _ & H) | [(Hx & _ & H) | [(Hx & _ & H) | [(Hx & _ & H) | [Hx H]]]]]];
    rewrite H.
  1: rewrite (decide_False (P := SFltb neg_inf x = true)) by congruence.
  2-6: rewrite (decide_True (P := SFltb neg_inf x = true)) by (clear H IH; forder).
  all: repeat (case_decide; [simplify_eq|]); simplify_eq; simpl in *; lia.
Qed.

Lemma hike_counts_with_data (f : DataFrame) :
  dropna (Hike_Calculated <$> records f) ≠ [] →
  hike_counts f
  = Some ((λ l, (l, length (filter (λ x, cut bins labels x = Some l)
                              (dropna (Hike_Calculated <$> records f))))) <$> labels).
Proof.
  intros Hne. unfold hike_counts.
  destruct (dropna (Hike_Calculated <$> records f)) as [|x xs] eqn:Hd; [done|].
  f_equal. unfold reindex. apply list_fmap_ext. intros _ l _. by rewrite binned_count.
Qed.

(** C7, as stated, fails where the guard of line 164 takes the other
    branch: on a filtered table without any hike value no labelled counts
    are produced at all. *)
Lemma hike_histogram_absent_without_data :
  ¬ ∃ counts, hike_counts (load_data no_hike_sheet) = Some counts
              ∧ counts.*1 = ["<0%"; "0-15%"; "15-30%"; "30-50%"; ">50%"].
Proof. intros (counts & Hc & _). vm_compute in Hc. discriminate Hc. Qed.

(** A hike of -inf (current 1, offered -1e307: the quotient overflows) is
    not missing and is in no bin, the first interval being open at -inf:
    of the two hike values of this table the histogram counts one. *)
Example hike_neg_inf_in_no_bin :
  dropna (Hike_Calculated <$> records (load_data overflow_sheet)) = [inf; neg_inf]
  ∧ cut bins labels neg_inf = None
  ∧ hike_counts (load_data overflow_sheet)
    = Some [("<0%", 0); ("0-15%", 0); ("15-30%", 0); ("30-50%", 0); (">50%", 1)]%nat.
Proof. split_and!; by vm_compute. Qed.

(** C7 (amended). Bin edges and labels are the fixed lists. When the
    filtered table has at least one non-missing hike value, the histogram
    lists exactly the five labels in the fixed order, each with the number
    of non-missing hike values in its bin (0 for an empty bin); every
    non-missing value above -inf has exactly one bin, -inf has none, so the
    counts add up to the number of non-missing values above -inf. When the
    table has no non-missing hike value, no histogram is produced. *)
Theorem hike_histogram_when_data (f : DataFrame) :
  bins = [neg_inf; of_Z 0; of_Z 15; of_Z 30; of_Z 50; inf]
  ∧ labels = ["<0%"; "0-15%"; "15-30%"; "30-50%"; ">50%"]
  ∧ NoDup labels
  ∧ (∀ x, SFltb neg_inf x = true → ∃ l, l ∈ labels ∧ cut bins labels x = Some l)
  ∧ (∀ x, SFltb neg_inf x = false → cut bins labels x = None)
  ∧ (dropna (Hike_Calculated <$> records f) = [] → hike_counts f = None)
  ∧ (dropna (Hike_Calculated <$> records f) ≠ [] →
     ∃ counts, hike_counts f = Some counts
       ∧ counts.*1 = labels
       ∧ (∀ l n, (l, n) ∈ counts →
            n = length (filter (λ x, cut bins labels x = Some l)
                          (dropna (Hike_Calculated <$> records f))))
       ∧ sum_list counts.*2
         = length (filter (λ x, SFltb neg_inf x = true)
                     (dropna (Hike_Calculated <$> records f)))).
Proof.
  split_and!; [done | done | by_decide | apply cut_hike_label | apply cut_hike_None | |].
  - intros Hd. unfold hike_counts. by rewrite Hd.
  - intros Hne. eexists. split; [by apply hike_counts_with_data|]. split_and!.
    + rewrite <- list_fmap_compose. apply list_fmap_id.
    + intros l n Hin. apply list_elem_of_fmap in Hin as (l' & [= -> ->] & _). done.
    + rewrite <- list_fmap_compose. apply binned_counts_total.
Qed.

Lemma hike_histogram_when_data_witness :
  ∃ counts, hike_counts sample_df = Some counts ∧ counts.*1 = labels
            ∧ sum_list counts.*2 = 2%nat.
Proof.
  destruct (proj2 (proj2 (proj2 (proj2 (proj2 (proj2 (hike_histogram_when_data sample_df)))))))
    as (counts & Hc & Hl & _ & Hs).
  - vm_compute. discriminate.
  - exists counts. split_and!; [done | done |]. rewrite Hs. by vm_compute.
Defined.

(** C10. The histogram intervals are open below and closed above: a hike
    of exactly 0 is in '<0%', exactly 15 in '0-15%', exactly 30 in '15-30%'.
    The 'Hike >= 30%' KPI counts every record whose hike is at least 30, so
    a record with a hike of exactly 30 (such as current 10, offered 13) is
    counted by the KPI and sits in the '15-30%' bin, not in '30-50%'. *)
Theorem hike_bins_closed_above :
  (∀ x, cut bins labels x = Some "<0%"
        ↔ SFltb neg_inf x = true ∧ SFleb x (of_Z 0) = true)
  ∧ (∀ x, cut bins labels x = Some "0-15%"
          ↔ SFltb (of_Z 0) x = true ∧ SFleb x (of_Z 15) = true)
  ∧ (∀ x, cut bins labels x = Some "15-30%"
          ↔ SFltb (of_Z 15) x = true ∧ SFleb x (of_Z 30) = true)
  ∧ (∀ x, cut bins labels x = Some "30-50%"
          ↔ SFltb (of_Z 30) x = true ∧ SFleb x (of_Z 50) = true)
  ∧ (∀ x, cut bins labels x = Some ">50%" ↔ SFltb (of_Z 50) x = true)
  ∧ cut bins labels (of_Z 0) = Some "<0%"
  ∧ cut bins labels (of_Z 15) = Some "0-15%"
  ∧ cut bins labels (of_Z 30) = Some "15-30%"
  ∧ hike_30_plus [] = 0%nat
  ∧ (∀ f i r v, Hike_Calculated r = Some v → SFleb (of_Z 30) v = true →
       hike_30_plus ((i, r) :: f) = S (hike_30_plus f))
  ∧ (∀ f i r, (¬ ∃ v, Hike_Calculated r = Some v ∧ SFleb (of_Z 30) v = true) →
       hike_30_plus ((i, r) :: f) = hike_30_plus f)
  ∧ (∀ i r v, Hike_Calculated r = Some v → SFeqb v (of_Z 30) = true →
       hike_30_plus [(i, r)] = 1%nat
       ∧ hike_counts [(i, r)]
         = Some [("<0%", 0); ("0-15%", 0); ("15-30%", 1); ("30-50%", 0); (">50%", 0)]%nat)
  ∧ Hike_Calculated sample_record = Some (of_Z 30).
Proof.
  assert (∀ x l, cut bins labels x = Some l →
    (l = "<0%" ∧ SFltb neg_inf x = true ∧ SFleb x (of_Z 0) = true)
    ∨ (l = "0-15%" ∧ SFltb (of_Z 0) x = true ∧ SFleb x (of_Z 15) = true)
    ∨ (l = "15-30%" ∧ SFltb (of_Z 15) x = true ∧ SFleb x (of_Z 30) = true)
    ∨ (l = "30-50%" ∧ SFltb (of_Z 30) x = true ∧ SFleb x (of_Z 50) = true)
    ∨ (l = ">50%" ∧ SFltb (of_Z 50) x = true)) as Hinv.
  { intros x l Hl.
    destruct (cut_hike_cases x)
      as [[? H] | [(? & ? & H) | [(? & ? & H) | [(? & ? & H) | [(? & ? & H) | [? H]]]]]];
      rewrite H in Hl; [done|..]; injection Hl as <-; tauto. }
  assert (∀ f i r, hike_30_plus ((i, r) :: f)
    = ((if ge_scalar (Hike_Calculated r) (of_Z 30) then 1 else 0) + hike_30_plus f)%nat)
    as Hstep.
  { intros f i r. unfold hike_30_plus, mask_select. rewrite filter_cons. simpl.
    destruct (ge_scalar (Hike_Calculated r) (of_Z 30)); by simpl. }
  split_and!.
  - intros x. split.
    + intros H. destruct (Hinv _ _ H) as [[_ ?] | [[? _] | [[? _] | [[? _] | [? _]]]]]; done.
    + intros Hx. destruct (cut_hike_cases x)
        as [[? H] | [(? & ? & H) | [(? & ? & H) | [(? & ? & H) | [(? & ? & H) | [? H]]]]]];
        try done; clear H Hinv; exfalso; forder.
  - intros x. split.
    + intros H. destruct (Hinv _ _ H) as [[? _] | [[_ ?] | [[? _] | [[? _] | [? _]]]]]; done.
    + intros Hx. destruct (cut_hike_cases x)
        as [[? H] | [(? & ? & H) | [(? & ? & H) | [(? & ? & H) | [(? & ? & H) | [? H]]]]]];
        try done; clear H Hinv; exfalso; forder.
  - intros x. split.
    + intros H. destruct (Hinv _ _ H) as [[? _] | [[? _] | [[_ ?] | [[? _] | [? _]]]]]; done.
    + intros Hx. destruct (cut_hike_cases x)
        as [[? H] | [(? & ? & H) | [(? & ? & H) | [(? & ? & H) | [(? & ? & H) | [? H]]]]]];
        try done; clear H Hinv; exfalso; forder.
  - intros x. split.
    + intros H. destruct (Hinv _ _ H) as [[? _] | [[? _] | [[? _] | [[_ ?] | [? _]]]]]; done.
    + intros Hx. destruct (cut_hike_cases x)
        as [[? H] | [(? & ? & H) | [(? & ? & H) | [(? & ? & H) | [(? & ? & H) | [? H]]]]]];
        try done; clear H Hinv; exfalso; forder.
  - intros x. split.
    + intros H. destruct (Hinv _ _ H) as [[? _] | [[? _] | [[? _] | [[? _] | [_ ?]]]]]; done.
    + intros Hx. destruct (cut_hike_cases x)
        as [[? H] | [(? & ? & H) | [(? & ? & H) | [(? & ? & H) | [(? & ? & H) | [? H]]]]]];
        try done; clear H Hinv; exfalso; forder.
  - by vm_compute.
  - by vm_compute.
  - by vm_compute.
  - done.
  - intros f i r v Hv Hge. rewrite Hstep, Hv. simpl. by rewrite Hge.
  - intros f i r Hn. rewrite Hstep.
    destruct (Hike_Calculated r) as [v|]; simpl; [|done].
    destruct (SFleb (of_Z 30) v) eqn:Hge; [|done].
    destruct Hn. by exists v.
  - intros i r v Hv Heq. split.
    + rewrite Hstep, Hv. simpl.
      assert (SFleb (of_Z 30) v = true) as ->; [|done]. clear Hinv Hv. forder.
    + assert (isna v = false) as Hna by by apply feqb_key in Heq as (? & _).
      destruct (cut_hike_cases v)
        as [[? H] | [(? & ? & H) | [(? & ? & H) | [(? & ? & H) | [(? & ? & H) | [? H]]]]]];
        try (solve [clear H Hinv Hv; exfalso; forder]).
      unfold hike_counts.
      assert (dropna (Hike_Calculated <$> records [(i, r)]) = [v]) as ->.
      { unfold records, dropna. cbn [fmap list_fmap omap list_omap snd].
        rewrite Hv. cbn [missing]. by rewrite Hna. }
      assert (cut bins labels <$> [v] = [Some "15-30%"]) as ->.
      { rewrite list_fmap_singleton. by rewrite H. }
      reflexivity.
  - by vm_compute.
Qed.

(** ** Full historical trend *)

Lemma full_trend_months (t : DataFrame) :
  tr_Month <$> full_trend t ≡ₚ unique (Year_Month <$> records t).
Proof.
  unfold full_trend, sort_values_Month, groupby_Year_Month.
  rewrite merge_sort_Permutation, <- !list_fmap_compose.
  rewrite (list_fmap_ext _ id (sorted _)) by done.
  rewrite list_fmap_id. apply merge_sort_Permutation.
Qed.

Lemma elem_of_full_trend (t : DataFrame) (row : TrendRow) :
  row ∈ full_trend t ↔
  ∃ k, k ∈ Year_Month <$> records t
       ∧ row = agg_group (k, filter (λ r, Year_Month r = k) (records t)).
Proof.
  unfold full_trend, sort_values_Month, groupby_Year_Month.
  rewrite merge_sort_Permutation, <- list_fmap_compose, list_elem_of_fmap.
  split.
  - intros (k & -> & Hk). exists k. split; [|done].
    by apply elem_of_unique, elem_of_sorted.
  - intros (k & Hk & ->). exists k. split; [done|].
    by apply elem_of_sorted, elem_of_unique.
Qed.

Lemma full_trend_row_counts (t : DataFrame) (row : TrendRow) :
  row ∈ full_trend t →
  (∃ r, r ∈ records t ∧ Year_Month r = tr_Month row)
  ∧ tr_Total_Offers row
    = length (filter (λ r, Year_Month r = tr_Month row) (records t))
  ∧ tr_Onboarded row
    = length (filter (λ r, Status r = CStr "Joined")
                (filter (λ r, Year_Month r = tr_Month row) (records t))).
Proof.
  intros (k & Hk & ->)%elem_of_full_trend. simpl. split_and!.
  - apply list_elem_of_fmap in Hk as (r & -> & Hr). by exists r.
  - done.
  - f_equal. apply list_filter_iff. intros r.
    rewrite <- cell_eq_true. apply Is_true_true.
Qed.

(** C8. Whatever the active filter, the trend handed to the chart is the
    one computed from the whole table bound to [df]: it has one row per
    year-month key present in the table, with the number of offers of that
    month and the number of those whose status is 'Joined', and its rows are
    in ascending order of the key, without repetition. *)
Theorem full_trend_unfiltered_sorted (df : nat) (t : DataFrame) (w : Widgets)
    (h : gmap nat DataFrame) :
  h !! df = Some t →
  ∃ d h', page df w h = Some (d, h')
    ∧ out_full_trend d = full_trend t
    ∧ StronglySorted (λ a b, String.le (tr_Month a) (tr_Month b)) (out_full_trend d)
    ∧ NoDup (tr_Month <$> out_full_trend d)
    ∧ (∀ r, r ∈ records t →
         ∃ row, row ∈ out_full_trend d ∧ tr_Month row = Year_Month r)
    ∧ (∀ row, row ∈ out_full_trend d →
         (∃ r, r ∈ records t ∧ Year_Month r = tr_Month row)
         ∧ tr_Total_Offers row
           = length (filter (λ r, Year_Month r = tr_Month row) (records t))
         ∧ tr_Onboarded row
           = length (filter (λ r, Status r = CStr "Joined")
                       (filter (λ r, Year_Month r = tr_Month row) (records t)))).
Proof.
  intros Hdf.
  destruct (page_runs df t w h Hdf) as (d & h' & Hrun & _ & _ & Htrend & _).
  exists d, h'. rewrite Htrend. split_and!; [done | done | | | |].
  - apply (StronglySorted_merge_sort by_month).
  - rewrite full_trend_months. apply NoDup_unique_from.
  - intros r Hr. eexists. split.
    + apply elem_of_full_trend. eexists. split; [|done].
      by apply list_elem_of_fmap_2.
    + done.
  - apply full_trend_row_counts.
Qed.

Lemma full_trend_unfiltered_sorted_witness :
  ∃ d h',
    page 0 (months_widgets ["Jan 2025"]) {[0%nat := sample_df]} = Some (d, h')
    ∧ out_total_offers d = 2%nat
    ∧ out_full_trend d
      = [ {| tr_Month := "2024-11"; tr_Total_Offers := 1; tr_Onboarded := 0 |};
          {| tr_Month := "2025-01"; tr_Total_Offers := 2; tr_Onboarded := 2 |};
          {| tr_Month := "2025-03"; tr_Total_Offers := 1; tr_Onboarded := 0 |} ].
Proof.
  destruct (full_trend_unfiltered_sorted 0 sample_df (months_widgets ["Jan 2025"])
              {[0%nat := sample_df]}) as (d & h' & Hrun & Htrend & _).
  - reflexivity.
  - exists d, h'. split_and!; [done | | by rewrite Htrend].
    vm_compute in Hrun. by injection Hrun as <- _.
Defined.

(** * Further properties of the code *)

(** ** load_data: which rows survive, and under which labels *)

Lemma elem_of_load_rows (sheet : list RawRow) (k i : nat) (r : OfferRecord) :
  (i, r) ∈ load_rows k sheet ↔
  ∃ j raw t, i = (k + j)%nat ∧ sheet !! j = Some raw
             ∧ raw_Offer_Date raw = Some t ∧ r = normalize t raw.
Proof.
  revert k. induction sheet as [|raw0 rest IH]; intros k; simpl.
  - split; [by intros ?%elem_of_nil | by intros (j & ? & ? & _ & ? & _)].
  - assert ((i, r) ∈ load_rows (S k) rest ↔
            ∃ j raw t, i = (k + S j)%nat ∧ rest !! j = Some raw
                       ∧ raw_Offer_Date raw = Some t ∧ r = normalize t raw) as IH'.
    { rewrite IH. split; intros (j & raw & t & -> & ?); exists j, raw, t;
        (split; [lia | done]). }
    destruct (raw_Offer_Date raw0) as [t0|] eqn:Hd.
    + rewrite elem_of_cons, IH'. split.
      * intros [[= -> ->] | (j & raw & t & -> & ? & ? & ->)].
        -- exists 0%nat, raw0, t0. split_and!; [lia | done..].
        -- exists (S j), raw, t. done.
      * intros ([|j] & raw & t & -> & Hl & Ht & ->); simpl in Hl.
        -- injection Hl as <-. left. rewrite Hd in Ht. injection Ht as <-.
           f_equal. lia.
        -- right. by exists j, raw, t.
    + rewrite IH'. split.
      * intros (j & raw & t & -> & ? & ? & ->). exists (S j), raw, t. done.
      * intros ([|j] & raw & t & -> & Hl & Ht & ->); simpl in Hl.
        -- injection Hl as <-. by rewrite Hd in Ht.
        -- by exists j, raw, t.
Qed.

Lemma length_load_rows (sheet : list RawRow) (k : nat) :
  (length (load_rows k sheet)
   + length (filter (λ raw, raw_Offer_Date raw = None) sheet))%nat
  = length sheet.
Proof.
  revert k. induction sheet as [|raw rest IH]; intros k; [done|].
  simpl. rewrite filter_cons.
  destruct (raw_Offer_Date raw) eqn:Hd.
  - rewrite decide_False by done. simpl. by rewrite IH.
  - rewrite decide_True by done. simpl. rewrite Nat.add_succ_r. by rewrite IH.
Qed.

(** X1. [load_data] keeps exactly the rows whose offer date parsed, each
    under the position it had in the sheet and normalized from that very
    row; the rows it drops are the ones without a date, so kept and dropped
    rows add up to the sheet. *)
Theorem load_data_keeps_dated_rows (sheet : list RawRow) :
  (∀ i r, (i, r) ∈ load_data sheet ↔
          ∃ raw t, sheet !! i = Some raw ∧ raw_Offer_Date raw = Some t
                   ∧ r = normalize t raw)
  ∧ (length (load_data sheet)
     + length (filter (λ raw, raw_Offer_Date raw = None) sheet))%nat
    = length sheet.
Proof.
  split; [|apply length_load_rows].
  intros i r. unfold load_data. rewrite elem_of_load_rows. split.
  - intros (j & raw & t & -> & ?). by exists raw, t.
  - intros (raw & t & ?). by exists i, raw, t.
Qed.

Lemma index_load_rows_sorted (sheet : list RawRow) (k : nat) :
  StronglySorted lt (index (load_rows k sheet))
  ∧ Forall (λ i, k ≤ i < k + length sheet)%nat (index (load_rows k sheet)).
Proof.
  revert k. induction sheet as [|raw rest IH]; intros k; simpl.
  - split; constructor.
  - destruct (IH (S k)) as [Hs Hb].
    assert (Forall (λ i, k ≤ i < k + S (length rest))%nat (index (load_rows (S k) rest))) as Hb'.
    { eapply Forall_impl; [exact Hb|]. simpl. intros; lia. }
    destruct (raw_Offer_Date raw); [|done].
    unfold index in *. rewrite fmap_cons. simpl. split.
    + constructor; [done|]. eapply Forall_impl; [exact Hb|]. simpl. intros; lia.
    + constructor; [lia | done].
Qed.

(** X2. The index labels of the loaded table are strictly increasing row
    positions of the sheet: no label is repeated and each is below the
    number of sheet rows. *)
Theorem load_data_index_increasing (sheet : list RawRow) :
  StronglySorted lt (index (load_data sheet))
  ∧ NoDup (index (load_data sheet))
  ∧ Forall (λ i, i < length sheet)%nat (index (load_data sheet)).
Proof.
  destruct (index_load_rows_sorted sheet 0) as [Hs Hb]. fold (load_data sheet) in *.
  split_and!; [done | |].
  - clear Hb. induction Hs as [|i l _ IH Hall]; constructor; [|done].
    intros Hin. rewrite Forall_forall in Hall. specialize (Hall _ Hin). lia.
  - eapply Forall_impl; [exact Hb|]. simpl. intros; lia.
Qed.

(** ** Month labels and year-month keys *)

Lemma string_length_app (s t : string) :
  String.length (s +:+ t) = (String.length s + String.length t)%nat.
Proof.
  induction s as [|a s IH]; [done|].
  change (String a s +:+ t) with (String a (s +:+ t)). simpl. by rewrite IH.
Qed.

Lemma string_app_inj_suffix (s1 s2 t1 t2 : string) :
  s1 +:+ t1 = s2 +:+ t2 → String.length t1 = String.length t2 →
  s1 = s2 ∧ t1 = t2.
Proof.
  revert s2. induction s1 as [|a s1 IH]; intros [|b s2] Heq Hlen.
  - done.
  - exfalso. change (t1 = String b (s2 +:+ t2)) in Heq. rewrite Heq in Hlen.
    simpl in Hlen. rewrite string_length_app in Hlen. lia.
  - exfalso. change (String a (s1 +:+ t1) = t2) in Heq. rewrite <- Heq in Hlen.
    simpl in Hlen. rewrite string_length_app in Hlen. lia.
  - change (String a (s1 +:+ t1) = String b (s2 +:+ t2)) in Heq.
    injection Heq as -> Heq. destruct (IH _ Heq Hlen) as [-> ->]. done.
Qed.

Ltac each_month m H :=
  let E := fresh in
  assert (m = 1 ∨ m = 2 ∨ m = 3 ∨ m = 4 ∨ m = 5 ∨ m = 6
          ∨ m = 7 ∨ m = 8 ∨ m = 9 ∨ m = 10 ∨ m = 11 ∨ m = 12)%Z as E by lia;
  clear H; destruct_or! E; subst m.

Lemma month_2d_length (m : Z) : (1 ≤ m ≤ 12)%Z → String.length (month_2d m) = 2%nat.
Proof. intros H. each_month m H; reflexivity. Qed.

Lemma month_2d_inj (m1 m2 : Z) :
  (1 ≤ m1 ≤ 12)%Z → (1 ≤ m2 ≤ 12)%Z → month_2d m1 = month_2d m2 → m1 = m2.
Proof.
  intros H1 H2 Heq. each_month m1 H1; each_month m2 H2;
    vm_compute in Heq; first [reflexivity | discriminate Heq].
Qed.

Lemma month_abbr_app_inj (m1 m2 : Z) (s1 s2 : string) :
  (1 ≤ m1 ≤ 12)%Z → (1 ≤ m2 ≤ 12)%Z →
  month_abbr m1 +:+ s1 = month_abbr m2 +:+ s2 → m1 = m2 ∧ s1 = s2.
Proof.
  intros H1 H2 Heq. each_month m1 H1; each_month m2 H2;
    vm_compute in Heq; first [discriminate Heq | by injection Heq as ->].
Qed.

Lemma strftime_b_Y_inj (t1 t2 : Timestamp) :
  (1 ≤ d_month (ts_date t1) ≤ 12)%Z → (1 ≤ d_month (ts_date t2) ≤ 12)%Z →
  strftime_b_Y t1 = strftime_b_Y t2 ↔
  d_year (ts_date t1) = d_year (ts_date t2)
  ∧ d_month (ts_date t1) = d_month (ts_date t2).
Proof.
  intros H1 H2. unfold strftime_b_Y. split.
  - intros Heq. apply month_abbr_app_inj in Heq as [Hm Hy]; [|done..].
    split; [|done]. injection Hy as Hy. by apply (inj pretty).
  - by intros [-> ->].
Qed.

Lemma period_M_str_inj (t1 t2 : Timestamp) :
  (1 ≤ d_month (ts_date t1) ≤ 12)%Z → (1 ≤ d_month (ts_date t2) ≤ 12)%Z →
  period_M_str t1 = period_M_str t2 ↔
  d_year (ts_date t1) = d_year (ts_date t2)
  ∧ d_month (ts_date t1) = d_month (ts_date t2).
Proof.
  intros H1 H2. unfold period_M_str. split.
  - intros Heq. apply string_app_inj_suffix in Heq as [Hy Hm].
    + split; [by apply (inj pretty)|]. injection Hm as Hm. by apply month_2d_inj.
    + by rewrite !string_length_app, !month_2d_length.
  - by intros [-> ->].
Qed.

(** X3. For rows of the loaded table (calendar months 1 to 12), the month
    label the filter works on and the year-month key the trend groups by
    identify the same thing: two rows have the same 'Month' exactly when
    they have the same 'Year-Month', which is exactly when their offer dates
    lie in the same month of the same year. *)
Theorem month_label_matches_year_month (sheet : list RawRow)
    (i1 i2 : nat) (r1 r2 : OfferRecord) :
  (i1, r1) ∈ load_data sheet → (i2, r2) ∈ load_data sheet →
  (1 ≤ d_month (ts_date (Offer_Date r1)) ≤ 12)%Z →
  (1 ≤ d_month (ts_date (Offer_Date r2)) ≤ 12)%Z →
  (Month r1 = Month r2 ↔ Year_Month r1 = Year_Month r2)
  ∧ (Month r1 = Month r2 ↔
     d_year (ts_date (Offer_Date r1)) = d_year (ts_date (Offer_Date r2))
     ∧ d_month (ts_date (Offer_Date r1)) = d_month (ts_date (Offer_Date r2))).
Proof.
  intros (raw1 & t1 & _ & _ & ->)%load_rows_normalized
         (raw2 & t2 & _ & _ & ->)%load_rows_normalized H1 H2.
  simpl in *. split; [|by apply strftime_b_Y_inj].
  by rewrite strftime_b_Y_inj, period_M_str_inj.
Qed.

Lemma month_label_matches_year_month_witness :
  Month sample_record = Month sample_record_jan20
  ↔ Year_Month sample_record = Year_Month sample_record_jan20.
Proof.
  refine (proj1 (month_label_matches_year_month sample_sheet 0 3
                   sample_record sample_record_jan20 _ _ _ _)).
  - by apply (list_elem_of_lookup_2 _ 0%nat).
  - by apply (list_elem_of_lookup_2 _ 2%nat).
  - simpl. lia.
  - simpl. lia.
Defined.

(** ** The filter section: labels, ranges and selections *)

Lemma index_reset_index (t : DataFrame) : index (reset_index t) = seq 0 (length t).
Proof.
  unfold index, reset_index. rewrite fmap_imap.
  rewrite (imap_ext _ (λ j _, id j)); [|done].
  rewrite imap_seq_0. apply list_fmap_id.
Qed.

Lemma length_reset_index (t : DataFrame) : length (reset_index t) = length t.
Proof. unfold reset_index. apply length_imap. Qed.

Lemma records_mask_select (mask : OfferRecord → bool) (t : DataFrame) :
  records (mask_select mask t) = filter (λ r, mask r) (records t).
Proof. unfold records, mask_select. by rewrite filter_fmap. Qed.

Lemma length_records (t : DataFrame) : length (records t) = length t.
Proof. unfold records. apply length_fmap. Qed.

Lemma filter_section_result (df : nat) (t : DataFrame) (w : Widgets)
    (h : gmap nat DataFrame) :
  h !! df = Some t →
  ∃ o h', filter_section df w h = Some (o, h')
          ∧ h' !! o = Some (reset_index (filter_rows t w)).
Proof.
  intros Hdf.
  destruct (filter_section_runs df t w h Hdf) as (o & h' & Hrun & _ & _ & Ho).
  by exists o, h'.
Qed.

Lemma filter_rows_length (t : DataFrame) (w : Widgets) :
  (length (filter_rows t w) ≤ length t)%nat.
Proof.
  rewrite <- !length_records. apply sublist_length, filter_rows_sublist.
Qed.

(** X4. Whatever the widgets return, the filtered table comes out with the
    fresh labels 0, 1, ..., n-1 (the labels of the base table are not
    carried over), and it never has more rows than the base table. *)
Theorem filtered_table_relabelled (df : nat) (t : DataFrame) (w : Widgets)
    (h : gmap nat DataFrame) :
  h !! df = Some t →
  ∃ o h' f, filter_section df w h = Some (o, h') ∧ h' !! o = Some f
    ∧ index f = seq 0 (length f)
    ∧ (length f ≤ length t)%nat.
Proof.
  intros Hdf. destruct (filter_section_result df t w h Hdf) as (o & h' & Hrun & Ho).
  exists o, h', (reset_index (filter_rows t w)). split_and!; [done | done | |].
  - by rewrite index_reset_index, length_reset_index.
  - rewrite length_reset_index. apply filter_rows_length.
Qed.

Lemma filtered_table_relabelled_witness :
  ∃ o h' f,
    filter_section 0 (months_widgets ["Nov 2024"]) {[0%nat := sample_df]} = Some (o, h')
    ∧ h' !! o = Some f ∧ index f = seq 0 (length f).
Proof.
  destruct (filtered_table_relabelled 0 sample_df (months_widgets ["Nov 2024"])
              {[0%nat := sample_df]}) as (o & h' & f & Hrun & Ho & Hi & _).
  - reflexivity.
  - by exists o, h', f.
Defined.

Lemma date_leb_inverted (s e d : date) :
  date_ltb e s = true → date_leb s d = true → date_leb d e = true → False.
Proof. destruct s, e, d. intros ???. date_lia. Qed.

(** X5. In 'Date Range' mode with two dates, the filtered table holds
    exactly the records whose offer date, time of day ignored, lies between
    the two dates, both included. A range whose end is before its start
    gives an empty table, not the unfiltered one. *)
Theorem date_range_selects_between (df : nat) (t : DataFrame) (w : Widgets)
    (h : gmap nat DataFrame) (start_date end_date : date) :
  h !! df = Some t →
  filter_type w = "Date Range" → date_range w = [start_date; end_date] →
  ∃ o h' f, filter_section df w h = Some (o, h') ∧ h' !! o = Some f
    ∧ (∀ r, r ∈ records f ↔
            r ∈ records t
            ∧ date_leb start_date (ts_date (Offer_Date r)) = true
            ∧ date_leb (ts_date (Offer_Date r)) end_date = true)
    ∧ (date_ltb end_date start_date = true → f = []).
Proof.
  intros Hdf Hft Hr.
  destruct (filter_section_result df t w h Hdf) as (o & h' & Hrun & Ho).
  exists o, h', (reset_index (filter_rows t w)).
  assert (filter_rows t w = mask_select (in_date_range start_date end_date) t) as Hfr.
  { unfold filter_rows. by rewrite decide_True, Hr. }
  rewrite Hfr in Ho |- *.
  assert (∀ r, r ∈ records (mask_select (in_date_range start_date end_date) t) ↔
            r ∈ records t
            ∧ date_leb start_date (ts_date (Offer_Date r)) = true
            ∧ date_leb (ts_date (Offer_Date r)) end_date = true) as Hmem.
  { intros r. rewrite records_mask_select, list_elem_of_filter.
    unfold in_date_range. rewrite <- andb_true_iff, Is_true_true. tauto. }
  split_and!; [done | done | |].
  - intros r. by rewrite records_reset_index.
  - intros Hinv.
    destruct (mask_select _ t) as [|[i r] rest] eqn:Hsel; [done|]. exfalso.
    destruct (proj1 (Hmem r)) as (_ & Hs & He).
    { unfold records. rewrite fmap_cons. left. }
    by eapply date_leb_inverted.
Qed.

Lemma date_range_selects_between_witness :
  ∃ o h' f,
    filter_section 0 (dates_widgets [Date 2025 3 1; Date 2025 1 1]) {[0%nat := sample_df]}
      = Some (o, h')
    ∧ h' !! o = Some f ∧ f = [].
Proof.
  destruct (date_range_selects_between 0 sample_df
              (dates_widgets [Date 2025 3 1; Date 2025 1 1]) {[0%nat := sample_df]}
              (Date 2025 3 1) (Date 2025 1 1))
    as (o & h' & f & Hrun & Ho & _ & Hempty).
  - reflexivity.
  - reflexivity.
  - reflexivity.
  - exists o, h', f. split_and!; [done | done |]. by apply Hempty.
Defined.

(** X6. In 'Select Months' mode with at least one month selected, the
    filtered table holds exactly the records whose month label is selected.
    So a selection that covers every month of the table returns all records,
    and a non-empty selection of months that do not occur in the table
    returns an empty table (only the empty selection falls back). *)
Theorem month_selection_selects_labels (df : nat) (t : DataFrame) (w : Widgets)
    (h : gmap nat DataFrame) :
  h !! df = Some t →
  filter_type w ≠ "Date Range" → selected_months w ≠ [] →
  ∃ o h' f, filter_section df w h = Some (o, h') ∧ h' !! o = Some f
    ∧ (∀ r, r ∈ records f ↔ r ∈ records t ∧ Month r ∈ selected_months w)
    ∧ ((∀ m, m ∈ all_months t → m ∈ selected_months w) → records f = records t)
    ∧ ((∀ m, m ∈ selected_months w → m ∉ all_months t) → f = []).
Proof.
  intros Hdf Hft Hsel.
  destruct (filter_section_result df t w h Hdf) as (o & h' & Hrun & Ho).
  exists o, h', (reset_index (filter_rows t w)).
  assert (filter_rows t w = mask_select (month_isin (selected_months w)) t) as Hfr.
  { unfold filter_rows. rewrite decide_False by done.
    by destruct (selected_months w). }
  rewrite Hfr in Ho |- *. rewrite records_reset_index.
  split_and!; [done | done | | |].
  - intros r. rewrite records_mask_select, list_elem_of_filter.
    unfold month_isin. rewrite Is_true_true, bool_decide_eq_true. tauto.
  - intros Hall. f_equal. apply mask_select_all. intros i r Hin.
    apply bool_decide_eq_true, Hall. by eapply Month_in_all_months.
  - intros Hnone.
    destruct (mask_select _ t) as [|[i r] rest] eqn:Hm; [done|]. exfalso.
    assert ((i, r) ∈ mask_select (month_isin (selected_months w)) t) as Hin.
    { rewrite Hm. left. }
    unfold mask_select in Hin. apply list_elem_of_filter in Hin as [Hp Hin].
    simpl in Hp. apply Is_true_true, bool_decide_eq_true in Hp.
    apply (Hnone _ Hp). by eapply Month_in_all_months.
Qed.

Lemma month_selection_selects_labels_witness :
  ∃ o h' f,
    filter_section 0 (months_widgets ["Feb 2025"]) {[0%nat := sample_df]} = Some (o, h')
    ∧ h' !! o = Some f ∧ f = [].
Proof.
  destruct (month_selection_selects_labels 0 sample_df (months_widgets ["Feb 2025"])
              {[0%nat := sample_df]}) as (o & h' & f & Hrun & Ho & _ & _ & Hnone).
  - reflexivity.
  - done.
  - done.
  - exists o, h', f. split_and!; [done | done |]. apply Hnone.
    intros m ->%list_elem_of_singleton. by_decide.
Defined.

Lemma imap_compose {A B C} (f : nat → B → C) (g : nat → A → B) (l : list A) :
  imap f (imap g l) = imap (λ i x, f i (g i x)) l.
Proof.
  revert f g. induction l as [|x l IH]; intros f g; [done|].
  rewrite !imap_cons. f_equal. apply IH.
Qed.

Lemma reset_index_idemp (t : DataFrame) : reset_index (reset_index t) = reset_index t.
Proof. unfold reset_index. rewrite imap_compose. by apply imap_ext. Qed.

Lemma mask_select_reset_index (mask : OfferRecord → bool) (t : DataFrame) :
  (∀ i r, (i, r) ∈ t → mask r = true) →
  mask_select mask (reset_index t) = reset_index t.
Proof.
  intros Hall. apply mask_select_all. intros i r Hin.
  assert (r ∈ records (reset_index t)) as Hr.
  { apply list_elem_of_fmap. by exists (i, r). }
  rewrite records_reset_index in Hr.
  apply list_elem_of_fmap in Hr as ([j r'] & -> & Hin'). by apply (Hall j).
Qed.

Lemma filter_rows_idemp (t : DataFrame) (w : Widgets) :
  filter_rows (reset_index (filter_rows t w)) w = reset_index (filter_rows t w).
Proof.
  unfold filter_rows. destruct (decide (filter_type w = "Date Range")).
  - destruct (date_range w) as [|d1 [|d2 [|d3 ds]]]; try done.
    apply mask_select_reset_index. intros i r Hin.
    unfold mask_select in Hin. apply list_elem_of_filter in Hin as [Hp _].
    by apply Is_true_true.
  - destruct (selected_months w) as [|m ms]; [done|].
    apply mask_select_reset_index. intros i r Hin.
    unfold mask_select in Hin. apply list_elem_of_filter in Hin as [Hp _].
    by apply Is_true_true.
Qed.

(** X7. Filtering is idempotent: running the filter section again on its
    own result, with the same widget values, returns a table with the same
    rows and the same labels. *)
Theorem filter_section_idempotent (df : nat) (t : DataFrame) (w : Widgets)
    (h : gmap nat DataFrame) :
  h !! df = Some t →
  ∃ o1 h1 f, filter_section df w h = Some (o1, h1) ∧ h1 !! o1 = Some f
    ∧ ∃ o2 h2, filter_section o1 w h1 = Some (o2, h2) ∧ h2 !! o2 = Some f
               ∧ h2 !! o1 = Some f ∧ o2 ≠ o1.
Proof.
  intros Hdf.
  destruct (filter_section_result df t w h Hdf) as (o1 & h1 & Hrun1 & Ho1).
  exists o1, h1, (reset_index (filter_rows t w)). split_and!; [done | done |].
  destruct (filter_section_runs o1 _ w h1 Ho1) as (o2 & h2 & Hrun2 & Hsub & Hn & Ho2).
  exists o2, h2. rewrite filter_rows_idemp, reset_index_idemp in Ho2.
  split_and!; [done | done | by eapply lookup_weaken |].
  intros ->. by rewrite Ho1 in Hn.
Qed.

Lemma filter_section_idempotent_witness :
  ∃ o1 h1 f,
    filter_section 0 (months_widgets ["Jan 2025"]) {[0%nat := sample_df]} = Some (o1, h1)
    ∧ h1 !! o1 = Some f
    ∧ ∃ o2 h2, filter_section o1 (months_widgets ["Jan 2025"]) h1 = Some (o2, h2)
               ∧ h2 !! o2 = Some f.
Proof.
  destruct (filter_section_idempotent 0 sample_df (months_widgets ["Jan 2025"])
              {[0%nat := sample_df]})
    as (o1 & h1 & f & Hrun1 & Ho1 & o2 & h2 & Hrun2 & Ho2 & _).
  - reflexivity.
  - exists o1, h1, f. split_and!; [done | done |]. by exists o2, h2.
Defined.

(** ** The bounds offered to the date widget *)

Lemma foldl_ts_min_in (l : list Timestamp) (a : Timestamp) : foldl ts_min a l ∈ a :: l.
Proof.
  revert a. induction l as [|b l IH]; intros a; simpl; [left|].
  specialize (IH (ts_min a b)). apply elem_of_cons in IH as [-> | IH].
  - unfold ts_min. destruct (ts_leb a b); [left | right; left].
  - right. by right.
Qed.

Lemma foldl_ts_max_in (l : list Timestamp) (a : Timestamp) : foldl ts_max a l ∈ a :: l.
Proof.
  revert a. induction l as [|b l IH]; intros a; simpl; [left|].
  specialize (IH (ts_max a b)). apply elem_of_cons in IH as [-> | IH].
  - unfold ts_max. destruct (ts_leb a b); [right; left | left].
  - right. by right.
Qed.

Lemma date_leb_trans (a b c : date) :
  date_leb a b = true → date_leb b c = true → date_leb a c = true.
Proof. destruct a, b, c. intros ??. date_lia. Qed.

(** X8. The bounds computed for the date widget exist exactly when the
    table has rows; they are the dates of actual rows, the minimum is not
    after the maximum, and every row's offer date lies between them. *)
Theorem min_max_date_bounds (t : DataFrame) :
  (min_date t = None ↔ t = [])
  ∧ (max_date t = None ↔ t = [])
  ∧ ∀ lo hi, min_date t = Some lo → max_date t = Some hi →
      date_leb lo hi = true
      ∧ (∃ r, r ∈ records t ∧ ts_date (Offer_Date r) = lo)
      ∧ (∃ r, r ∈ records t ∧ ts_date (Offer_Date r) = hi)
      ∧ ∀ r, r ∈ records t →
          date_leb lo (ts_date (Offer_Date r)) = true
          ∧ date_leb (ts_date (Offer_Date r)) hi = true.
Proof.
  unfold min_date, max_date. split_and!.
  - destruct t; simpl; split; done.
  - destruct t; simpl; split; done.
  - intros lo hi Hlo Hhi.
    destruct (series_min _) as [m|] eqn:Hm; [|done].
    destruct (series_max _) as [M|] eqn:HM; [|done].
    simpl in Hlo, Hhi. injection Hlo as <-. injection Hhi as <-.
    assert (∀ r, r ∈ records t →
              date_leb (ts_date m) (ts_date (Offer_Date r)) = true
              ∧ date_leb (ts_date (Offer_Date r)) (ts_date M) = true) as Hall.
    { intros r Hr. split; apply ts_leb_date_leb.
      - eapply series_min_le; [done | by apply list_elem_of_fmap_2].
      - eapply series_max_ge; [done | by apply list_elem_of_fmap_2]. }
    assert (∃ r, r ∈ records t ∧ ts_date (Offer_Date r) = ts_date m) as Hmin.
    { destruct (Offer_Date <$> records t) as [|a l] eqn:Hcol; [done|].
      simpl in Hm. injection Hm as <-.
      pose proof (foldl_ts_min_in l a) as Hin. rewrite <- Hcol in Hin.
      apply list_elem_of_fmap in Hin as (r & Heq & Hr). exists r. by rewrite Heq. }
    assert (∃ r, r ∈ records t ∧ ts_date (Offer_Date r) = ts_date M) as Hmax.
    { destruct (Offer_Date <$> records t) as [|a l] eqn:Hcol; [done|].
      simpl in HM. injection HM as <-.
      pose proof (foldl_ts_max_in l a) as Hin. rewrite <- Hcol in Hin.
      apply list_elem_of_fmap in Hin as (r & Heq & Hr). exists r. by rewrite Heq. }
    split_and!; [|done..].
    destruct Hmin as (r & Hr & <-). by apply Hall.
Qed.

Lemma min_max_date_bounds_witness :
  date_leb (Date 2024 11 5) (Date 2025 3 2) = true.
Proof.
  refine (proj1 (proj2 (proj2 (min_max_date_bounds sample_df))
                   (Date 2024 11 5) (Date 2025 3 2) _ _)); reflexivity.
Defined.

(** ** The month options *)

(** X9. The options of the month selector are the month labels that occur
    in the table, each listed once, in ascending string order; there is no
    option exactly when the table has no row. *)
Theorem all_months_sorted_distinct (t : DataFrame) :
  StronglySorted String.le (all_months t)
  ∧ NoDup (all_months t)
  ∧ (∀ m, m ∈ all_months t ↔ ∃ r, r ∈ records t ∧ Month r = m)
  ∧ (all_months t = [] ↔ t = []).
Proof.
  assert (∀ m, m ∈ all_months t ↔ ∃ r, r ∈ records t ∧ Month r = m) as Hmem.
  { intros m. unfold all_months. rewrite elem_of_sorted, elem_of_unique, list_elem_of_fmap.
    split; intros (r & ? & ?); by exists r. }
  split_and!; [| | done |].
  - apply (StronglySorted_merge_sort String.le).
  - unfold all_months, sorted. rewrite merge_sort_Permutation. apply NoDup_unique_from.
  - split; [|by intros ->].
    intros Hnil. destruct t as [|[i r] t]; [done|]. exfalso.
    assert (Month r ∈ all_months ((i, r) :: t)) as Hin.
    { apply Hmem. exists r. split; [left | done]. }
    rewrite Hnil in Hin. by apply elem_of_nil in Hin.
Qed.

(** ** Running the page *)

Lemma page_result (df : nat) (t : DataFrame) (w : Widgets) (h : gmap nat DataFrame) :
  h !! df = Some t →
  ∃ h', page df w h
        = Some ({| out_total_offers := total_offers (reset_index (filter_rows t w));
                   out_joined := joined (reset_index (filter_rows t w));
                   out_join_rate := join_rate (reset_index (filter_rows t w));
                   out_avg_hike := avg_hike_text (avg_hike (reset_index (filter_rows t w)));
                   out_hike_30_plus := hike_30_plus (reset_index (filter_rows t w));
                   out_internal_count := internal_count (reset_index (filter_rows t w));
                   out_external_count := external_count (reset_index (filter_rows t w));
                   out_hike_counts := hike_counts (reset_index (filter_rows t w));
                   out_full_trend := full_trend t |}, h').
Proof.
  intros Hdf.
  assert (runs (page df w) h (λ d h', d = {|
     out_total_offers := total_offers (reset_index (filter_rows t w));
     out_joined := joined (reset_index (filter_rows t w));
     out_join_rate := join_rate (reset_index (filter_rows t w));
     out_avg_hike := avg_hike_text (avg_hike (reset_index (filter_rows t w)));
     out_hike_30_plus := hike_30_plus (reset_index (filter_rows t w));
     out_internal_count := internal_count (reset_index (filter_rows t w));
     out_external_count := external_count (reset_index (filter_rows t w));
     out_hike_counts := hike_counts (reset_index (filter_rows t w));
     out_full_trend := full_trend t |})) as (d & h' & Hrun & _ & ->).
  { unfold page. apply runs_bind.
    eapply runs_wand; [by apply filter_section_runs|].
    intros o h1 Hsub [_ Ho]. apply runs_bind. eapply runs_read; [done|].
    apply runs_bind. eapply runs_read; [by eapply lookup_weaken|].
    by apply runs_ret. }
  by exists h'.
Qed.

(** Figures that count or average over rows do not look at the labels. *)
Lemma length_mask_select_records (mask : OfferRecord → bool) (t t' : DataFrame) :
  records t = records t' →
  length (mask_select mask t) = length (mask_select mask t').
Proof.
  intros Hrec. rewrite <- !length_records, !records_mask_select. by rewrite Hrec.
Qed.

Lemma kpis_records (t t' : DataFrame) :
  records t = records t' →
  total_offers t = total_offers t' ∧ joined t = joined t'
  ∧ join_rate t = join_rate t' ∧ avg_hike t = avg_hike t'
  ∧ hike_30_plus t = hike_30_plus t' ∧ internal_count t = internal_count t'
  ∧ external_count t = external_count t' ∧ hike_counts t = hike_counts t'.
Proof.
  intros Hrec.
  assert (total_offers t = total_offers t') as Htot.
  { unfold total_offers. by rewrite <- !length_records, Hrec. }
  assert (joined t = joined t') as Hj by by apply length_mask_select_records.
  split_and!; try done; try by apply length_mask_select_records.
  - unfold join_rate. by rewrite Htot, Hj.
  - unfold avg_hike. by rewrite Hrec.
  - unfold hike_counts. by rewrite Hrec.
Qed.

(** ** The KPIs of the page *)

Lemma filtered_loaded_rows (sheet : list RawRow) (w : Widgets) (r : OfferRecord) :
  r ∈ records (reset_index (filter_rows (load_data sheet) w)) →
  ∃ raw t, raw ∈ sheet ∧ raw_Offer_Date raw = Some t ∧ r = normalize t raw.
Proof.
  rewrite records_reset_index. intros Hr.
  eapply elem_of_sublist in Hr; [|apply filter_rows_sublist].
  apply list_elem_of_fmap in Hr as ([i r'] & -> & Hin).
  by eapply load_rows_normalized.
Qed.

Lemma length_filter_split {A} (P Q : A → Prop)
    `{!∀ x, Decision (P x)} `{!∀ x, Decision (Q x)} (l : list A) :
  (∀ x, x ∈ l → (P x ∧ ¬ Q x) ∨ (Q x ∧ ¬ P x)) →
  (length (filter P l) + length (filter Q l))%nat = length l.
Proof.
  induction l as [|x l IH]; intros Hall; [done|].
  rewrite !filter_cons.
  assert ((length (filter P l) + length (filter Q l))%nat = length l) as IH'.
  { apply IH. intros y Hy. apply Hall. by right. }
  destruct (Hall x) as [[HP HQ] | [HQ HP]]; [left | |].
  - rewrite decide_True, decide_False by done. simpl. lia.
  - rewrite decide_False, decide_True by done. simpl. lia.
Qed.

Lemma length_filter_le {A} (P : A → Prop) `{!∀ x, Decision (P x)} (l : list A) :
  (length (filter P l) ≤ length l)%nat.
Proof. apply length_filter. Qed.

Lemma str_eq_true (a b : string) : str_eq a b = true ↔ a = b.
Proof. unfold str_eq. apply bool_decide_eq_true. Qed.

(** X10. On a table produced by [load_data], whatever the filter: the
    'Internal Sources' and 'External Sources' figures add up to 'Total
    Offers', and neither 'Onboarded' nor 'Hike >= 30%' exceeds it. *)
Theorem page_counts_add_up (sheet : list RawRow) (df : nat) (w : Widgets)
    (h : gmap nat DataFrame) :
  h !! df = Some (load_data sheet) →
  ∃ d h', page df w h = Some (d, h')
    ∧ (out_internal_count d + out_external_count d)%nat = out_total_offers d
    ∧ (out_joined d ≤ out_total_offers d)%nat
    ∧ (out_hike_30_plus d ≤ out_total_offers d)%nat.
Proof.
  intros Hdf. destruct (page_result df _ w h Hdf) as (h' & Hrun).
  eexists _, h'. split; [exact Hrun|]. simpl.
  set (f := reset_index (filter_rows (load_data sheet) w)).
  split_and!.
  - unfold internal_count, external_count, total_offers.
    rewrite <- !length_records, !records_mask_select. apply length_filter_split.
    intros r Hr. destruct (filtered_loaded_rows _ _ _ Hr) as (raw & t & _ & _ & ->).
    simpl. rewrite !Is_true_true, !str_eq_true.
    destruct (classify_source_two (raw_Source raw)) as [-> | ->]; [left | right]; done.
  - unfold joined, total_offers, mask_select. apply length_filter.
  - unfold hike_30_plus, total_offers, mask_select. apply length_filter.
Qed.

Lemma page_counts_add_up_witness :
  ∃ d h', page 0 (months_widgets ["Jan 2025"]) {[0%nat := load_data sample_sheet]}
          = Some (d, h')
    ∧ (out_internal_count d + out_external_count d)%nat = out_total_offers d.
Proof.
  destruct (page_counts_add_up sample_sheet 0 (months_widgets ["Jan 2025"])
              {[0%nat := load_data sample_sheet]}) as (d & h' & Hrun & Hsum & _).
  - reflexivity.
  - by exists d, h'.
Defined.




(** ** Hike figures against each other *)

Lemma hike_30_plus_dropna (f : DataFrame) :
  hike_30_plus f
  = length (filter (λ v, SFleb (of_Z 30) v) (dropna (Hike_Calculated <$> records f))).
Proof.
  unfold hike_30_plus, mask_select, records, dropna.
  induction f as [|[i r] f IH]; [done|].
  rewrite filter_cons, !fmap_cons. cbn [omap list_omap snd].
  destruct (Hike_Calculated r) as [v|]; cbn [missing ge_scalar].
  - destruct (isna v) eqn:Hna.
    + assert (SFleb (of_Z 30) v = false) as -> by (destruct v; done).
      rewrite decide_False by (by intros []). apply IH.
    + rewrite filter_cons. destruct (decide (SFleb (of_Z 30) v)); simpl; by rewrite IH.
  - rewrite decide_False by (by intros []). apply IH.
Qed.

Lemma at_least_30_by_bin (l4 l5 : string) (xs : list float64) :
  l4 = "30-50%" → l5 = ">50%" →
  length (filter (λ v, SFleb (of_Z 30) v) xs)
  = (length (filter (λ x, cut bins labels x = Some l4) xs)
     + length (filter (λ x, cut bins labels x = Some l5) xs)
     + length (filter (λ v, SFeqb v (of_Z 30)) xs))%nat.
Proof.
  intros -> ->.
  induction xs as [|x xs IH]; [done|]. rewrite !filter_cons.
  assert (SFleb (of_Z 30) x = false ∧ SFeqb x (of_Z 30) = false
            ∧ cut bins labels x ≠ Some "30-50%" ∧ cut bins labels x ≠ Some ">50%"
          ∨ SFleb (of_Z 30) x = true ∧ SFeqb x (of_Z 30) = true
            ∧ cut bins labels x ≠ Some "30-50%" ∧ cut bins labels x ≠ Some ">50%"
          ∨ SFleb (of_Z 30) x = true ∧ SFeqb x (of_Z 30) = false
            ∧ cut bins labels x = Some "30-50%" ∧ cut bins labels x ≠ Some ">50%"
          ∨ SFleb (of_Z 30) x = true ∧ SFeqb x (of_Z 30) = false
            ∧ cut bins labels x ≠ Some "30-50%" ∧ cut bins labels x = Some ">50%")
    as Hcase.
  { clear IH.
    destruct (cut_hike_cases x)
      as [[Ha H] | [(Ha & Hb & H) | [(Ha & Hb & H) | [(Ha & Hb & H) | [(Ha & Hb & H) | [Ha H]]]]]];
      rewrite H; clear H.
    - left. split_and!; [forder | forder | done..].
    - left. split_and!; [forder | forder | done..].
    - left. split_and!; [forder | forder | done..].
    - destruct (SFeqb x (of_Z 30)) eqn:Eeq.
      + right. left. split_and!; [forder | done..].
      + left. split_and!; [forder | done..].
    - right. right. left. split_and!; [forder | forder | done..].
    - right. right. right. split_and!; [forder | forder | done..]. }
  remember (cut bins labels) as c eqn:Hc. clear Hc.
  destruct Hcase as [(-> & -> & H1 & H2) | [(-> & -> & H1 & H2)
                    | [(-> & -> & H1 & H2) | (-> & -> & H1 & H2)]]].
  all: repeat case_decide; cbn [Is_true length] in *; try tauto; lia.
Qed.

Lemma exactly_30_in_15_30 (l3 : string) (xs : list float64) :
  l3 = "15-30%" →
  (length (filter (λ v, SFeqb v (of_Z 30)) xs)
   ≤ length (filter (λ v, cut bins labels v = Some l3) xs))%nat.
Proof.
  intros ->. induction xs as [|v l IH]; [done|].
  rewrite !filter_cons. destruct (decide (SFeqb v (of_Z 30))) as [Heq | Hne].
  - apply Is_true_true in Heq.
    destruct (cut_hike_cases v)
      as [[? H] | [(? & ? & H) | [(? & ? & H) | [(? & ? & H) | [(? & ? & H) | [? H]]]]]];
      try (solve [clear H IH; exfalso; forder]).
    rewrite decide_True by done. cbn [length]. lia.
  - destruct (decide _); cbn [length]; lia.
Qed.

(** X12. When the histogram is drawn, the 'Hike >= 30%' figure is the sum
    of the '30-50%' and '>50%' bars plus the number of hikes of exactly 30,
    which the histogram puts in the '15-30%' bar; so it lies between the two
    upper bars and the three upper bars. *)
Theorem hike_30_plus_against_bars (f : DataFrame) (counts : list (string * nat)) :
  hike_counts f = Some counts →
  ∃ c1 c2 c3 c4 c5,
    counts = [("<0%", c1); ("0-15%", c2); ("15-30%", c3); ("30-50%", c4); (">50%", c5)]
    ∧ hike_30_plus f
      = (c4 + c5 + length (filter (λ v, SFeqb v (of_Z 30))
                             (dropna (Hike_Calculated <$> records f))))%nat
    ∧ (c4 + c5 ≤ hike_30_plus f)%nat
    ∧ (hike_30_plus f ≤ c3 + c4 + c5)%nat.
Proof.
  intros Hc.
  destruct (dropna (Hike_Calculated <$> records f)) as [|x xs] eqn:Hd.
  { unfold hike_counts in Hc. by rewrite Hd in Hc. }
  rewrite hike_counts_with_data in Hc by (by rewrite Hd). rewrite Hd in Hc.
  pose (cnt := λ l : string,
          length (filter (λ v, cut bins labels v = Some l) (x :: xs))).
  exists (cnt "<0%"), (cnt "0-15%"), (cnt "15-30%"), (cnt "30-50%"), (cnt ">50%").
  split; [by injection Hc as <-|].
  rewrite hike_30_plus_dropna, Hd.
  rewrite (at_least_30_by_bin "30-50%" ">50%") by done.
  pose proof (exactly_30_in_15_30 "15-30%" (x :: xs) eq_refl) as H15.
  fold (cnt "30-50%") (cnt ">50%"). fold (cnt "15-30%") in H15.
  split_and!; [done | lia | lia].
Qed.

Lemma hike_30_plus_against_bars_witness :
  ∃ c1 c2 c3 c4 c5,
    hike_counts sample_df
    = Some [("<0%", c1); ("0-15%", c2); ("15-30%", c3); ("30-50%", c4); (">50%", c5)]
    ∧ (c4 + c5 ≤ hike_30_plus sample_df)%nat.
Proof.
  destruct (hike_30_plus_against_bars sample_df
              [("<0%", 1); ("0-15%", 0); ("15-30%", 1); ("30-50%", 0); (">50%", 0)]%nat)
    as (c1 & c2 & c3 & c4 & c5 & Hc & _ & Hle & _).
  - by vm_compute.
  - exists c1, c2, c3, c4, c5. split; [|done]. rewrite <- Hc. by vm_compute.
Defined.

(** X13. The 'No valid hike data.' notice replaces the histogram exactly
    when no record of the filtered table has a hike value, and then the
    'Avg % Hike' metric shows the dash. The converse fails: hikes of +inf
    and -inf have the mean NaN, so the metric shows the dash next to a
    histogram. *)
Theorem histogram_notice_implies_mean_dash (f : DataFrame) :
  (hike_counts f = None ↔ dropna (Hike_Calculated <$> records f) = [])
  ∧ (hike_counts f = None ↔
     Forall (λ r, Hike_Calculated r = None ∨ Hike_Calculated r = Some NaN) (records f))
  ∧ (hike_counts f = None →
     avg_hike f = NaN ∧ avg_hike_text (avg_hike f) = Literal "—")
  ∧ (hike_counts (load_data overflow_sheet) ≠ None
     ∧ avg_hike_text (avg_hike (load_data overflow_sheet)) = Literal "—").
Proof.
  assert (hike_counts f = None ↔ dropna (Hike_Calculated <$> records f) = []) as Hh.
  { unfold hike_counts.
    destruct (dropna (Hike_Calculated <$> records f)); simpl; split; done. }
  split_and!.
  - done.
  - rewrite Hh. unfold records, dropna. generalize (f.*2). clear. intros l.
    induction l as [|r l IH]; [split; [constructor | done]|].
    rewrite fmap_cons. cbn [omap list_omap].
    destruct (Hike_Calculated r) as [v|] eqn:Hr; cbn [missing].
    + destruct (isna v) eqn:Hna.
      * rewrite IH. split.
        -- intros ?. constructor; [|done]. right. rewrite Hr. by destruct v.
        -- by intros [_ ?]%Forall_cons.
      * split; [done|]. intros Hall. apply Forall_cons in Hall as [[Hn | Hn] _].
        -- by rewrite Hr in Hn.
        -- rewrite Hr in Hn. by injection Hn as ->.
    + rewrite IH. split.
      * intros ?. constructor; [|done]. by left.
      * by intros [_ ?]%Forall_cons.
  - intros Hn. apply Hh in Hn. assert (avg_hike f = NaN) as ->; [|done].
    unfold avg_hike, series_mean. by rewrite Hn.
  - by vm_compute.
  - by vm_compute.
Qed.

(** ** Counting by key *)

Lemma filter_eq_nil_not_in {K} `{EqDecision K} (ks : list K) (k : K) :
  k ∉ ks → filter (λ k', k' = k) ks = [].
Proof.
  induction ks as [|k' ks IH]; intros Hn; [done|].
  rewrite filter_cons_False; [apply IH|]; intros ?; apply Hn; [by right | subst; left].
Qed.

Lemma tally_lookup {K} `{Countable K} (ks : list K) (k : K) :
  foldr (λ k' (m : gmap K nat), <[k' := S (default 0%nat (m !! k'))]> m) ∅ ks !! k
  = if decide (k ∈ ks) then Some (length (filter (λ k', k' = k) ks)) else None.
Proof.
  induction ks as [|k' ks IH]; [done|]. cbn [foldr].
  destruct (decide (k' = k)) as [-> | Hne].
  - rewrite lookup_insert_eq, IH, filter_cons_True by done.
    rewrite (decide_True (P := k ∈ k :: ks)) by left. f_equal. cbn [length]. f_equal.
    destruct (decide (k ∈ ks)); [done|]. by rewrite filter_eq_nil_not_in.
  - rewrite lookup_insert_ne, IH, filter_cons_False by done.
    destruct (decide (k ∈ ks)) as [Hin | Hn].
    + rewrite (decide_True (P := k ∈ k' :: ks)); [done | by right].
    + rewrite (decide_False (P := k ∈ k' :: ks)); [done|].
      by intros [-> | ?]%elem_of_cons.
Qed.

Lemma tally_default {K} `{Countable K} (ks : list K) (k : K) :
  default 0%nat
    (foldr (λ k' (m : gmap K nat), <[k' := S (default 0%nat (m !! k'))]> m) ∅ ks !! k)
  = length (filter (λ k', k' = k) ks).
Proof.
  rewrite tally_lookup. destruct (decide (k ∈ ks)); [done|].
  by rewrite filter_eq_nil_not_in.
Qed.

Lemma tally_Some {K} `{Countable K} (ks : list K) (k : K) (n : nat) :
  foldr (λ k' (m : gmap K nat), <[k' := S (default 0%nat (m !! k'))]> m) ∅ ks !! k = Some n →
  k ∈ ks ∧ (0 < n)%nat.
Proof.
  rewrite tally_lookup. destruct (decide (k ∈ ks)) as [Hin | Hn]; [|done].
  intros [= <-]. split; [done|].
  apply list_elem_of_lookup_1 in Hin as [i Hi].
  assert (k ∈ filter (λ k', k' = k) ks) as Hk.
  { apply list_elem_of_filter. split; [done|]. by eapply list_elem_of_lookup_2. }
  destruct (filter _ ks); [by apply elem_of_nil in Hk | simpl; lia].
Qed.

Lemma tally_empty {K} `{Countable K} (ks : list K) :
  foldr (λ k' (m : gmap K nat), <[k' := S (default 0%nat (m !! k'))]> m) ∅ ks = ∅
  ↔ ks = [].
Proof.
  split; [|by intros ->]. destruct ks as [|k ks]; [done|]. cbn [foldr].
  intros Hm. by apply insert_non_empty in Hm.
Qed.

Lemma omap_id_Some {A} (l : list A) : omap id (Some <$> l) = l.
Proof.
  induction l as [|x l IH]; [done|]. rewrite fmap_cons.
  change (omap id (Some x :: (Some <$> l))) with (x :: omap id (Some <$> l)).
  by rewrite IH.
Qed.

Lemma sum_indicator {K} `{EqDecision K} (ks : list K) (a : K) :
  NoDup ks → a ∈ ks →
  sum_list_with (λ k, if decide (a = k) then 1 else 0)%nat ks = 1%nat.
Proof.
  induction 1 as [|k ks Hk Hnd IH]; intros Hin; [by apply elem_of_nil in Hin|].
  simpl. destruct (decide (a = k)) as [-> | Hne].
  - assert (sum_list_with (λ k', if decide (k = k') then 1 else 0)%nat ks = 0%nat) as ->; [|done].
    clear IH Hin Hnd. induction ks as [|k' ks IH]; [done|]. simpl.
    rewrite decide_False by (intros ->; apply Hk; left).
    apply IH. intros ?. apply Hk. by right.
  - apply elem_of_cons in Hin as [? | Hin]; [done|]. by rewrite IH.
Qed.

(** Counting the elements of a list key by key, over a duplicate-free list
    of keys that covers them, counts every element once. *)
Lemma sum_counts_by_key {A K} `{EqDecision K} (key : A → K) (ks : list K) (l : list A) :
  NoDup ks → (∀ x, x ∈ l → key x ∈ ks) →
  sum_list_with (λ k, length (filter (λ x, key x = k) l)) ks = length l.
Proof.
  intros Hnd. induction l as [|x l IH]; intros Hall.
  - clear. induction ks as [|k ks IHk]; [done|]. simpl in *. by rewrite IHk.
  - assert (sum_list_with (λ k, length (filter (λ y, key y = k) (x :: l))) ks
            = (sum_list_with (λ k, if decide (key x = k) then 1 else 0) ks
               + sum_list_with (λ k, length (filter (λ y, key y = k) l)) ks)%nat) as ->.
    { clear. induction ks as [|k ks IHk]; [done|]. cbn [sum_list_with].
      rewrite filter_cons, IHk. destruct (decide (key x = k)); cbn [length]; lia. }
    rewrite sum_indicator, IH; [done | | done |].
    + intros y Hy. apply Hall. by right.
    + apply Hall. left.
Qed.

(** ** The other charts *)

Lemma load_data_normalized (sheet : list RawRow) : Forall normalized (records (load_data sheet)).
Proof.
  apply Forall_forall. intros r Hr.
  apply list_elem_of_fmap in Hr as ([i r'] & -> & Hin).
  apply load_rows_normalized in Hin as (raw & t & _ & _ & ->). by exists t, raw.
Qed.

Lemma list_filter_iff_in {A} (P Q : A → Prop)
    `{!∀ x, Decision (P x)} `{!∀ x, Decision (Q x)} (l : list A) :
  (∀ x, x ∈ l → P x ↔ Q x) → filter P l = filter Q l.
Proof.
  induction l as [|x l IH]; intros Hall; [done|].
  rewrite !filter_cons, IH by (intros y Hy; apply Hall; by right).
  destruct (decide (P x)) as [HP | HP], (decide (Q x)) as [HQ | HQ]; try done.
  - destruct HQ. apply Hall; [left | done].
  - destruct HP. apply Hall; [left | done].
Qed.

Lemma sum_list_with_ext_in {A} (g1 g2 : A → nat) (l : list A) :
  (∀ x, x ∈ l → g1 x = g2 x) → sum_list_with g1 l = sum_list_with g2 l.
Proof.
  induction l as [|x l IH]; intros Hall; [done|]. simpl.
  rewrite IH by (intros y Hy; apply Hall; by right). rewrite Hall; [done | left].
Qed.

Lemma ctc_bin_Unknown (c : float64) : ctc_bin c = "Unknown" ↔ isna c = true.
Proof.
  unfold ctc_bin. destruct (isna c); [done|].
  destruct (SFltb c (of_Z 10)); [done|]. destruct (SFltb c (of_Z 20)); [done|].
  destruct (SFltb c (of_Z 30)); done.
Qed.

Lemma string_counts_lookup (col : list string) (k : string) :
  default 0%nat (value_counts (Some <$> col) !! k) = length (filter (λ k', k' = k) col).
Proof. unfold value_counts. rewrite omap_id_Some. apply tally_default. Qed.

Lemma string_counts_Some (col : list string) (k : string) (n : nat) :
  value_counts (Some <$> col) !! k = Some n → k ∈ col ∧ (0 < n)%nat.
Proof. unfold value_counts. rewrite omap_id_Some. apply tally_Some. Qed.

Lemma string_counts_empty (col : list string) :
  value_counts (Some <$> col) = ∅ ↔ col = [].
Proof. unfold value_counts. rewrite omap_id_Some. apply tally_empty. Qed.

Lemma column_count {A} `{EqDecision A} (c : OfferRecord → A) (l : list OfferRecord) (k : A) :
  length (filter (λ k', k' = k) (c <$> l)) = length (filter (λ r, c r = k) l).
Proof. by rewrite filter_fmap, length_fmap. Qed.

(** X16. The CTC pie of a table of loaded rows: the 'No CTC data.' notice
    replaces it exactly when the filtered table is empty; otherwise every
    slice is one of the five CTC bins and is non-empty, a slice counts the
    records of its bin, the slices add up to the number of records, and the
    'Unknown' slice counts the records whose offered CTC is missing. *)
Theorem ctc_counts_cover_rows (f : DataFrame) :
  Forall normalized (records f) →
  (ctc_counts f = None ↔ f = [])
  ∧ ∀ m, ctc_counts f = Some m →
      (∀ k n, m !! k = Some n → k ∈ ctc_labels ∧ (0 < n)%nat)
      ∧ (∀ k, default 0%nat (m !! k)
              = length (filter (λ r, CTC_Bin r = k) (records f)))
      ∧ sum_list_with (λ k, default 0%nat (m !! k)) ctc_labels = total_offers f
      ∧ default 0%nat (m !! "Unknown")
        = length (filter (λ r, isna (Offered r) = true) (records f)).
Proof.
  intros Hnorm. rewrite Forall_forall in Hnorm.
  assert (∀ r, r ∈ records f → CTC_Bin r = ctc_bin (Offered r)) as Hbin.
  { intros r Hr. by destruct (Hnorm r Hr) as (t & raw & ->). }
  unfold ctc_counts. set (col := CTC_Bin <$> records f).
  assert (∀ k, default 0%nat (value_counts (Some <$> col) !! k)
               = length (filter (λ r, CTC_Bin r = k) (records f))) as Hcount.
  { intros k. unfold col. by rewrite string_counts_lookup, column_count. }
  split.
  - destruct (decide (value_counts (Some <$> col) = ∅)) as [He | Hne].
    + split; [intros _ | done]. apply string_counts_empty in He.
      unfold col, records in He. by repeat apply fmap_nil_inv in He.
    + split; [done|]. intros ->. by destruct Hne.
  - intros m Hm. destruct (decide _) as [|Hne]; [done|]. injection Hm as <-.
    split_and!.
    + intros k n Hk. apply string_counts_Some in Hk as [Hin Hpos]. split; [|done].
      apply list_elem_of_fmap in Hin as (r & -> & Hr). rewrite Hbin by done.
      apply ctc_bin_in_labels.
    + done.
    + rewrite (sum_list_with_ext_in _ (λ k, length (filter (λ r, CTC_Bin r = k) (records f))))
        by (intros; apply Hcount).
      rewrite sum_counts_by_key.
      * unfold total_offers. apply length_records.
      * by_decide.
      * intros r Hr. rewrite Hbin by done. apply ctc_bin_in_labels.
    + rewrite Hcount. f_equal. apply list_filter_iff_in. intros r Hr.
      rewrite Hbin by done. apply ctc_bin_Unknown.
Qed.

Lemma ctc_counts_cover_rows_witness :
  ctc_counts sample_df = None ↔ sample_df = [].
Proof. exact (proj1 (ctc_counts_cover_rows sample_df (load_data_normalized sample_sheet))). Defined.

Lemma joined_df_rows (f : DataFrame) (r : OfferRecord) :
  r ∈ records (joined_df f) ↔ r ∈ records f ∧ Status r = CStr "Joined".
Proof.
  unfold joined_df. rewrite records_mask_select, list_elem_of_filter.
  rewrite Is_true_true, cell_eq_true. tauto.
Qed.

Lemma internal_joined_rows (f : DataFrame) (r : OfferRecord) :
  r ∈ records (internal_joined f) ↔
  r ∈ records f ∧ Status r = CStr "Joined" ∧ Source_Type r = "Internal".
Proof.
  unfold internal_joined. rewrite records_mask_select, list_elem_of_filter.
  rewrite Is_true_true, str_eq_true, joined_df_rows. tauto.
Qed.

Lemma length_internal_joined (f : DataFrame) :
  length (internal_joined f)
  = length (filter (λ r, Source_Type r = "Internal") (records (joined_df f))).
Proof. unfold internal_joined. apply length_mask_select. intros r. apply str_eq_true. Qed.

(** X17. The External-vs-Internal pie of a table of loaded rows counts
    joined records only: the 'No onboardings' notice replaces it exactly
    when no record of the filtered table is 'Joined'; otherwise its slices
    are 'Internal' and 'External' only, they add up to the 'Onboarded'
    figure, and the 'Internal' slice is the number of rows behind the
    internal-source pie. *)
Theorem source_type_counts_split_joined (f : DataFrame) :
  Forall normalized (records f) →
  (source_type_counts f = None ↔ joined f = 0%nat)
  ∧ ∀ m, source_type_counts f = Some m →
      (∀ k n, m !! k = Some n → (k = "Internal" ∨ k = "External") ∧ (0 < n)%nat)
      ∧ (default 0%nat (m !! "Internal") + default 0%nat (m !! "External"))%nat
        = joined f
      ∧ default 0%nat (m !! "Internal") = length (internal_joined f).
Proof.
  intros Hnorm. rewrite Forall_forall in Hnorm.
  assert (∀ r, r ∈ records (joined_df f) →
               Source_Type r = "Internal" ∨ Source_Type r = "External") as Htwo.
  { intros r [Hr _]%joined_df_rows. destruct (Hnorm r Hr) as (t & raw & ->).
    apply classify_source_two. }
  unfold source_type_counts. set (col := Source_Type <$> records (joined_df f)).
  assert (∀ k, default 0%nat (value_counts (Some <$> col) !! k)
               = length (filter (λ r, Source_Type r = k) (records (joined_df f)))) as Hcount.
  { intros k. unfold col. by rewrite string_counts_lookup, column_count. }
  assert (joined f = length (records (joined_df f))) as Hj.
  { by rewrite length_records. }
  split.
  - destruct (decide (value_counts (Some <$> col) = ∅)) as [He | Hne].
    + split; [intros _ | done]. apply string_counts_empty in He.
      unfold col in He. apply fmap_nil_inv in He. by rewrite Hj, He.
    + split; [done|]. intros H0. destruct Hne. apply string_counts_empty.
      unfold col. rewrite Hj in H0. by destruct (records (joined_df f)).
  - intros m Hm. destruct (decide _) as [|Hne]; [done|]. injection Hm as <-.
    split_and!.
    + intros k n Hk. apply string_counts_Some in Hk as [Hin Hpos]. split; [|done].
      apply list_elem_of_fmap in Hin as (r & -> & Hr). by apply Htwo.
    + rewrite !Hcount, Hj. apply length_filter_split.
      intros r Hr. destruct (Htwo r Hr) as [-> | ->]; [left | right]; done.
    + by rewrite Hcount, length_internal_joined.
Qed.

Lemma source_type_counts_split_joined_witness :
  source_type_counts sample_df = None ↔ joined sample_df = 0%nat.
Proof.
  exact (proj1 (source_type_counts_split_joined sample_df
                  (load_data_normalized sample_sheet))).
Defined.

Lemma omap_cell_key_strings (col : list cell) :
  (∀ c, c ∈ col → ∃ s, c = CStr s) → omap cell_key col = col.
Proof.
  induction col as [|c col IH]; intros Hall; [done|].
  destruct (Hall c) as [s ->]; [left|].
  change (omap cell_key (CStr s :: col)) with (CStr s :: omap cell_key col).
  rewrite IH; [done|]. intros c' Hc'. apply Hall. by right.
Qed.

(** X18. The internal-source pie of a table of loaded rows: the 'No
    internal onboardings' notice replaces it exactly when no record is both
    'Joined' and Internal; otherwise every slice is one of the three
    internal source names, a slice counts the joined records with that
    source, and the slices add up to the number of joined Internal records. *)
Theorem internal_counts_by_source (f : DataFrame) :
  Forall normalized (records f) →
  (internal_counts f = None ↔ internal_joined f = [])
  ∧ ∀ m, internal_counts f = Some m →
      (∀ k n, m !! k = Some n → (∃ s, k = CStr s ∧ s ∈ internal_sources) ∧ (0 < n)%nat)
      ∧ (∀ s, s ∈ internal_sources →
              default 0%nat (m !! CStr s)
              = length (filter (λ r, Status r = CStr "Joined" ∧ Source r = CStr s)
                          (records f)))
      ∧ sum_list_with (λ s, default 0%nat (m !! CStr s)) internal_sources
        = length (internal_joined f).
Proof.
  intros Hnorm. rewrite Forall_forall in Hnorm.
  assert (∀ r, r ∈ records (internal_joined f) →
               ∃ s, Source r = CStr s ∧ s ∈ internal_sources) as Hsrc.
  { intros r (Hr & _ & Hint)%internal_joined_rows.
    destruct (Hnorm r Hr) as (t & raw & ->). simpl in *.
    by apply classify_source_Internal. }
  split.
  - unfold internal_counts. destruct (internal_joined f); split; done.
  - intros m Hm. unfold internal_counts in Hm.
    destruct (internal_joined f) as [|ir rest] eqn:Hij; [done|]. rewrite <- Hij in *.
    clear Hij ir rest. injection Hm as <-. unfold value_counts_cells.
    rewrite omap_cell_key_strings.
    2: { intros c (r & -> & Hr)%list_elem_of_fmap.
         destruct (Hsrc r Hr) as (s & -> & _). by exists s. }
    assert (∀ s, default 0%nat
                   (foldr (λ k (m : gmap cell nat), <[k := S (default 0%nat (m !! k))]> m) ∅
                      (Source <$> records (internal_joined f)) !! CStr s)
                 = length (filter (λ r, Source r = CStr s) (records (internal_joined f))))
      as Hcount.
    { intros s. by rewrite tally_default, column_count. }
    split_and!.
    + intros k n Hk. apply tally_Some in Hk as [Hin Hpos]. split; [|done].
      apply list_elem_of_fmap in Hin as (r & -> & Hr).
      destruct (Hsrc r Hr) as (s & -> & Hs). by exists s.
    + intros s Hs. rewrite Hcount. unfold internal_joined, joined_df.
      rewrite !records_mask_select, !list_filter_filter. f_equal.
      apply list_filter_iff_in. intros r Hr.
      rewrite !Is_true_true, str_eq_true, cell_eq_true.
      destruct (Hnorm r Hr) as (t & raw & ->). simpl.
      split; [tauto|]. intros [? Hsr]. split_and!; [done | | done].
      apply classify_source_Internal. by exists s.
    + rewrite (sum_list_with_ext_in _
                (λ s, length (filter (λ r, source_name r = s) (records (internal_joined f))))).
      * rewrite sum_counts_by_key; [apply length_records | by_decide |].
        intros r Hr. unfold source_name. by destruct (Hsrc r Hr) as (s & -> & ?).
      * intros s Hs. rewrite Hcount. f_equal. apply list_filter_iff_in.
        intros r Hr. unfold source_name. destruct (Hsrc r Hr) as (s' & -> & _).
        split; [by intros [= ->] | by intros ->].
Qed.

Lemma internal_counts_by_source_witness :
  internal_counts sample_df = None ↔ internal_joined sample_df = [].
Proof.
  exact (proj1 (internal_counts_by_source sample_df (load_data_normalized sample_sheet))).
Defined.

Lemma length_filter_omap {A K} `{EqDecision K} (g : A → option K) (l : list A) (k : K) :
  length (filter (λ k', k' = k) (omap g l)) = length (filter (λ x, g x = Some k) l).
Proof.
  induction l as [|x l IH]; [done|]. rewrite (filter_cons _ x).
  destruct (g x) as [k'|] eqn:Hg.
  - assert (omap g (x :: l) = k' :: omap g l) as -> by (by simpl; rewrite Hg).
    rewrite filter_cons. destruct (decide (k' = k)) as [-> | Hne].
    + rewrite decide_True by done. cbn [length]. by rewrite IH.
    + rewrite decide_False by congruence. done.
  - assert (omap g (x :: l) = omap g l) as -> by (by simpl; rewrite Hg).
    by rewrite decide_False.
Qed.

(** X19. The overall status chart, always on the whole table: a bar counts
    the records whose status has that value, an empty status cell is never
    a bar, and the 'Joined' bar equals the number of joined records of the
    whole table. *)
Theorem status_all_counts (t : DataFrame) :
  (∀ k, default 0%nat (status_all t !! k)
        = length (filter (λ r, cell_key (Status r) = Some k) (records t)))
  ∧ (∀ s, default 0%nat (status_all t !! CStr s)
          = length (filter (λ r, Status r = CStr s) (records t)))
  ∧ status_all t !! CNaN = None
  ∧ default 0%nat (status_all t !! CStr "Joined") = joined t
  ∧ (status_all t = ∅ ↔ Forall (λ r, Status r = CNaN) (records t)).
Proof.
  assert (∀ k, default 0%nat (status_all t !! k)
               = length (filter (λ r, cell_key (Status r) = Some k) (records t))) as Hk.
  { intros k. unfold status_all, value_counts_cells.
    by rewrite tally_default, length_filter_omap, filter_fmap, length_fmap. }
  assert (∀ s, default 0%nat (status_all t !! CStr s)
               = length (filter (λ r, Status r = CStr s) (records t))) as Hs.
  { intros s. rewrite Hk. f_equal. apply list_filter_iff. intros r.
    destruct (Status r); simpl; split; congruence. }
  split_and!; [done | done | | |].
  - unfold status_all, value_counts_cells. rewrite tally_lookup.
    rewrite decide_False; [done|]. intros (c & _ & Hc)%list_elem_of_omap.
    by destruct c.
  - rewrite Hs. symmetry. apply length_mask_select. intros r. apply cell_eq_true.
  - unfold status_all, value_counts_cells. rewrite tally_empty.
    generalize (records t). intros l. induction l as [|r l IH].
    + split; [constructor | done].
    + rewrite fmap_cons. destruct (Status r) eqn:Hst.
      * split; [done|]. intros [? _]%Forall_cons. congruence.
      * split; [done|]. intros [? _]%Forall_cons. congruence.
      * change (omap cell_key (CNaN :: (Status <$> l))) with (omap cell_key (Status <$> l)).
        rewrite IH. split; [by constructor | by intros [_ ?]%Forall_cons].
Qed.

(** ** Totals of the trend *)

Lemma sum_list_with_fmap {A B} (g : B → nat) (f : A → B) (l : list A) :
  sum_list_with g (f <$> l) = sum_list_with (λ x, g (f x)) l.
Proof. induction l as [|x l IH]; [done|]. rewrite fmap_cons. simpl. by rewrite IH. Qed.

Lemma group_keys_cover (t : DataFrame) :
  NoDup (sorted (unique (Year_Month <$> records t)))
  ∧ ∀ r, r ∈ records t → Year_Month r ∈ sorted (unique (Year_Month <$> records t)).
Proof.
  split.
  - unfold sorted. rewrite merge_sort_Permutation. apply NoDup_unique_from.
  - intros r Hr. apply elem_of_sorted, elem_of_unique. by apply list_elem_of_fmap_2.
Qed.

(** X20. The monthly trend accounts for every record exactly once: its
    'Total Offers' add up to the number of rows of the table, its
    'Onboarded' add up to the number of joined rows, and in every month
    there is at least one offer and no more onboardings than offers. *)
Theorem full_trend_totals (t : DataFrame) :
  sum_list_with tr_Total_Offers (full_trend t) = length t
  ∧ sum_list_with tr_Onboarded (full_trend t) = joined t
  ∧ ∀ row, row ∈ full_trend t →
      (1 ≤ tr_Total_Offers row)%nat ∧ (tr_Onboarded row ≤ tr_Total_Offers row)%nat.
Proof.
  destruct (group_keys_cover t) as [Hnd Hcov].
  split_and!.
  - unfold full_trend, sort_values_Month, groupby_Year_Month.
    rewrite merge_sort_Permutation, !sum_list_with_fmap. simpl.
    rewrite sum_counts_by_key by done. apply length_records.
  - unfold full_trend, sort_values_Month, groupby_Year_Month.
    rewrite merge_sort_Permutation, !sum_list_with_fmap. simpl.
    rewrite (sum_list_with_ext_in _
              (λ k, length (filter (λ r, Year_Month r = k)
                              (filter (λ r, cell_eq (Status r) "Joined") (records t))))).
    + rewrite sum_counts_by_key; [| done |].
      * unfold joined. by rewrite <- length_records, records_mask_select.
      * intros r [_ Hr]%list_elem_of_filter. by apply Hcov.
    + intros k _. f_equal. rewrite !list_filter_filter. apply list_filter_iff. tauto.
  - intros row Hrow. destruct (full_trend_row_counts t row Hrow) as ((r & Hr & Hk) & -> & ->).
    split; [|apply length_filter].
    assert (r ∈ filter (λ r', Year_Month r' = tr_Month row) (records t)) as Hin.
    { by apply list_elem_of_filter. }
    destruct (filter _ (records t)); [by apply elem_of_nil in Hin | simpl; lia].
Qed.

(** ** The page when the filter selects nothing *)

Lemma mask_select_none (mask : OfferRecord → bool) (t : DataFrame) :
  (∀ i r, (i, r) ∈ t → mask r = false) → mask_select mask t = [].
Proof.
  unfold mask_select. induction t as [|[i r] t IH]; intros Hall; [done|].
  rewrite filter_cons_False.
  - apply IH. intros j r' Hin. apply (Hall j). by right.
  - simpl. rewrite (Hall i r); [tauto | left].
Qed.

(** X21. When the widgets select no row of a table, the page still renders:
    every count is 0, the join rate is 0, the mean hike shows the dash and
    the histogram is replaced by its notice, while the trend still covers
    the whole table. *)
Theorem page_on_empty_selection (df : nat) (t : DataFrame) (w : Widgets)
    (h : gmap nat DataFrame) :
  h !! df = Some t →
  (∀ r, r ∈ records t →
     if decide (filter_type w = "Date Range")
     then ∃ s e, date_range w = [s; e] ∧ in_date_range s e r = false
     else selected_months w ≠ [] ∧ Month r ∉ selected_months w) →
  ∃ d h', page df w h = Some (d, h')
    ∧ out_total_offers d = 0%nat ∧ out_joined d = 0%nat
    ∧ out_join_rate d = 0%Q ∧ out_avg_hike d = Literal "—"
    ∧ out_hike_30_plus d = 0%nat
    ∧ out_internal_count d = 0%nat ∧ out_external_count d = 0%nat
    ∧ out_hike_counts d = None
    ∧ out_full_trend d = full_trend t.
Proof.
  intros Hdf Hnone. destruct (page_result df t w h Hdf) as (h' & Hrun).
  assert (filter_rows t w = []) as Hf.
  { unfold filter_rows.
    destruct (decide (filter_type w = "Date Range")) as [Hft | Hft].
    - destruct t as [|[i r] t']; [by destruct (date_range w) as [|? [|? [|? ?]]]|].
      destruct (Hnone r) as (s0 & e0 & Hr0 & _); [left|]. rewrite Hr0.
      apply mask_select_none. intros j r' Hin.
      destruct (Hnone r') as (s1 & e1 & Hr1 & Hout).
      { apply list_elem_of_fmap. by exists (j, r'). }
      rewrite Hr0 in Hr1. by injection Hr1 as <- <-.
    - destruct t as [|[i r] t']; [by destruct (selected_months w)|].
      destruct (Hnone r) as [Hsel _]; [left|].
      destruct (selected_months w) as [|m ms] eqn:Hm; [done|]. rewrite <- Hm in *.
      apply mask_select_none. intros j r' Hin.
      destruct (Hnone r') as [_ Hout].
      { apply list_elem_of_fmap. by exists (j, r'). }
      unfold month_isin. by rewrite bool_decide_eq_false_2. }
  rewrite Hf in Hrun. eexists _, h'. split; [exact Hrun|]. simpl. done.
Qed.

Lemma page_on_empty_selection_witness :
  ∃ d h', page 0 (months_widgets ["Feb 2025"]) {[0%nat := sample_df]} = Some (d, h')
    ∧ out_total_offers d = 0%nat
    ∧ out_full_trend d = full_trend sample_df.
Proof.
  destruct (page_on_empty_selection 0 sample_df (months_widgets ["Feb 2025"])
              {[0%nat := sample_df]}) as (d & h' & Hrun & Htot & Hrest).
  - reflexivity.
  - intros r Hr. simpl. split; [done|].
    unfold sample_df, load_data, records in Hr. simpl in Hr.
    repeat (apply elem_of_cons in Hr as [-> | Hr]); try (by apply elem_of_nil in Hr);
      by_decide.
  - exists d, h'. split_and!; [done | done |]. apply Hrest.
Defined.

(** ** Figures and labels *)

(** X22. No figure of the page looks at the index labels: renumbering the
    rows of a table (as the filter section does last) changes neither the
    counts, nor the join rate, nor the mean hike, nor the histogram. *)
Theorem figures_ignore_labels (t : DataFrame) :
  total_offers (reset_index t) = total_offers t
  ∧ joined (reset_index t) = joined t
  ∧ join_rate (reset_index t) = join_rate t
  ∧ avg_hike (reset_index t) = avg_hike t
  ∧ hike_30_plus (reset_index t) = hike_30_plus t
  ∧ internal_count (reset_index t) = internal_count t
  ∧ external_count (reset_index t) = external_count t
  ∧ hike_counts (reset_index t) = hike_counts t.
Proof. apply kpis_records, records_reset_index. Qed.
